(** * A DNS wire-format codec: header, names, questions and answers

    Shallow embedding of the Go sources of the DNS server:
    - [Header], [parseDnsHeader], [buildResponse], [boolToUint16]
      (the header codec with its bit fields);
    - [DNSQuestion], [DNSAnswer] and their [Serialize] methods;
    - [parseDNSQuestion] (the name and question decoder).

    Go's fixed-width unsigned integers are integers of [Z] with the
    truncation of each conversion written out; a byte slice is a [list Z];
    a Go string is a [string] (one [ascii] per byte). *)

From Stdlib Require Import ZArith List String Ascii Lia Bool.
Import ListNotations.
Local Open Scope Z_scope.

(** ** Machine integers *)

(** The conversions [uint8(x)] (also written [byte(x)]), [uint16(x)] and
    [uint32(x)] keep the low bits. *)
Definition uint8 (x : Z) : Z := x mod 2 ^ 8.
Definition uint16 (x : Z) : Z := x mod 2 ^ 16.
Definition uint32 (x : Z) : Z := x mod 2 ^ 32.

Definition is_uint8 (x : Z) : Prop := 0 <= x < 2 ^ 8.
Definition is_uint16 (x : Z) : Prop := 0 <= x < 2 ^ 16.
Definition is_uint32 (x : Z) : Prop := 0 <= x < 2 ^ 32.

(** ** Slices *)

(** [s[lo:hi]] on a slice whose bounds are known to be in range. *)
Definition slice {A : Type} (lo hi : nat) (s : list A) : list A :=
  firstn (hi - lo) (skipn lo s).

(** [len(s)] as a Go [int]. *)
Definition len {A : Type} (s : list A) : Z := Z.of_nat (List.length s).

(** ** encoding/binary, big endian *)

Module BigEndian.

(** [binary.BigEndian.PutUint16(b, v)] fills the two bytes of [b]. *)
Definition PutUint16 (v : Z) : list Z :=
  [uint8 (Z.shiftr v 8); uint8 v].

(** [binary.BigEndian.PutUint32(b, v)] fills the four bytes of [b]. *)
Definition PutUint32 (v : Z) : list Z :=
  [uint8 (Z.shiftr v 24); uint8 (Z.shiftr v 16); uint8 (Z.shiftr v 8); uint8 v].

(** [binary.BigEndian.Uint16(b)] is [uint16(b[1]) | uint16(b[0])<<8]. *)
Definition Uint16 (b : list Z) : Z :=
  Z.lor (uint16 (nth 1 b 0)) (uint16 (Z.shiftl (uint16 (nth 0 b 0)) 8)).

(** [binary.BigEndian.Uint32(b)]. *)
Definition Uint32 (b : list Z) : Z :=
  Z.lor (Z.lor (Z.lor (uint32 (nth 3 b 0))
                      (uint32 (Z.shiftl (uint32 (nth 2 b 0)) 8)))
               (uint32 (Z.shiftl (uint32 (nth 1 b 0)) 16)))
        (uint32 (Z.shiftl (uint32 (nth 0 b 0)) 24)).

End BigEndian.

(** ** Results *)

(** A Go pair [(value, error)] of which exactly one side is meaningful. *)
Inductive result (A : Type) : Type :=
| Ok (a : A)
| Err (msg : string).
Arguments Ok {A} a.
Arguments Err {A} msg.

(** ** The header *)

(** The struct [Header].  Its field [Z] is [Z_] here, [Z] being the type of
    integers. *)
Record Header : Type := mkHeader {
  ID : Z;        (* uint16 *)
  QR : bool;
  OPCODE : Z;    (* uint8 *)
  AA : bool;
  TC : bool;
  RD : bool;
  RA : bool;
  Z_ : Z;        (* uint8 *)
  RCODE : Z;     (* uint8 *)
  QDCOUNT : Z;   (* uint16 *)
  ANCOUNT : Z;   (* uint16 *)
  NSCOUNT : Z;   (* uint16 *)
  ARCOUNT : Z    (* uint16 *)
}.

(** The values a Go [Header] can hold: every field within its type. *)
Record Header_wf (h : Header) : Prop := mkHeader_wf {
  wf_ID : is_uint16 (ID h);
  wf_OPCODE : is_uint8 (OPCODE h);
  wf_Z : is_uint8 (Z_ h);
  wf_RCODE : is_uint8 (RCODE h);
  wf_QDCOUNT : is_uint16 (QDCOUNT h);
  wf_ANCOUNT : is_uint16 (ANCOUNT h);
  wf_NSCOUNT : is_uint16 (NSCOUNT h);
  wf_ARCOUNT : is_uint16 (ARCOUNT h)
}.

(** The headers the specification calls valid: the multi-bit fields within
    their declared widths. *)
Record Header_valid (h : Header) : Prop := mkHeader_valid {
  valid_wf : Header_wf h;
  valid_OPCODE : OPCODE h < 16;
  valid_Z : Z_ h < 8;
  valid_RCODE : RCODE h < 16
}.

Definition AA_Mask : Z := Z.shiftl 1 2.
Definition TC_Mask : Z := Z.shiftl 1 1.
Definition RD_Mask : Z := 1.
Definition OPCODE_Shift : Z := 3.
Definition OPCODE_Mask : Z := 0x0F.

Definition boolToUint16 (b : bool) : Z :=
  if b then 1 else 0.

(** [x != 0] *)
Definition nonzero (x : Z) : bool := negb (x =? 0).

(** [parseDnsHeader]: a buffer of fewer than 12 bytes is refused, otherwise
    the fields are read off the first 12 bytes. *)
Definition parseDnsHeader (buf : list Z) : result Header :=
  if len buf <? 12 then Err "buffer too short"
  else
    let b2 := nth 2 buf 0 in
    let b3 := nth 3 buf 0 in
    Ok {| ID := BigEndian.Uint16 (slice 0 2 buf);
          QR := nonzero (Z.land b2 0x80);
          OPCODE := Z.land (Z.shiftr b2 OPCODE_Shift) OPCODE_Mask;
          AA := nonzero (Z.land b2 AA_Mask);
          TC := nonzero (Z.land b2 TC_Mask);
          RD := nonzero (Z.land b2 RD_Mask);
          RA := nonzero (Z.land b3 0x80);
          Z_ := Z.land (Z.shiftr b3 4) 0x07;
          RCODE := Z.land b3 0x0F;
          QDCOUNT := BigEndian.Uint16 (slice 4 6 buf);
          ANCOUNT := BigEndian.Uint16 (slice 6 8 buf);
          NSCOUNT := BigEndian.Uint16 (slice 8 10 buf);
          ARCOUNT := BigEndian.Uint16 (slice 10 12 buf) |}.

(** [header.QR = true]: the assignment through the pointer. *)
Definition set_QR (b : bool) (h : Header) : Header :=
  {| ID := ID h; QR := b; OPCODE := OPCODE h; AA := AA h; TC := TC h;
     RD := RD h; RA := RA h; Z_ := Z_ h; RCODE := RCODE h;
     QDCOUNT := QDCOUNT h; ANCOUNT := ANCOUNT h; NSCOUNT := NSCOUNT h;
     ARCOUNT := ARCOUNT h |}.

(** The flag word [buildResponse] assembles, one [flags |= ...] per line;
    every operand is a [uint16]. *)
Definition response_flags (header : Header) : Z :=
  let flags := uint16 0 in
  let flags := Z.lor flags 0x8000 in
  let flags := Z.lor flags (uint16 (Z.shiftl (Z.land (uint16 (OPCODE header)) OPCODE_Mask) 11)) in
  let flags := Z.lor flags (uint16 (Z.shiftl (boolToUint16 (AA header)) 10)) in
  let flags := Z.lor flags (uint16 (Z.shiftl (boolToUint16 (TC header)) 9)) in
  let flags := Z.lor flags (uint16 (Z.shiftl (boolToUint16 (RD header)) 8)) in
  let flags := Z.lor flags (uint16 (Z.shiftl (boolToUint16 (RA header)) 7)) in
  let flags := Z.lor flags (uint16 (Z.shiftl (Z.land (uint16 (Z_ header)) 0x07) 4)) in
  let flags := Z.lor flags (Z.land (uint16 (RCODE header)) 0x0F) in
  flags.

(** [binary.Write(binaryBuf, binary.BigEndian, v)] for a [uint16] appends
    its two bytes to the buffer; writing to a [bytes.Buffer] does not fail. *)
Definition binary_Write16 (binaryBuf : list Z) (v : Z) : list Z :=
  binaryBuf ++ BigEndian.PutUint16 v.

(** [buildResponse] receives a pointer: it returns the header as the call
    leaves it, the bytes, and the error, which is always [nil]. *)
Definition buildResponse (header : Header) : Header * (list Z * option string) :=
  let header := set_QR true header in
  let binaryBuf := [] in
  let binaryBuf := binary_Write16 binaryBuf (ID header) in
  let flags := response_flags header in
  let binaryBuf := binary_Write16 binaryBuf flags in
  let binaryBuf := binary_Write16 binaryBuf (QDCOUNT header) in
  let binaryBuf := binary_Write16 binaryBuf (ANCOUNT header) in
  let binaryBuf := binary_Write16 binaryBuf (NSCOUNT header) in
  let binaryBuf := binary_Write16 binaryBuf (ARCOUNT header) in
  (header, (binaryBuf, None)).

(** The bytes of the response. *)
Definition response_bytes (header : Header) : list Z :=
  fst (snd (buildResponse header)).

(** What the bytes of a response hold: the header as a reply, each
    multi-bit field cut to its width. *)
Definition masked (h : Header) : Header :=
  {| ID := ID h; QR := true; OPCODE := OPCODE h mod 16; AA := AA h; TC := TC h;
     RD := RD h; RA := RA h; Z_ := Z_ h mod 8; RCODE := RCODE h mod 16;
     QDCOUNT := QDCOUNT h; ANCOUNT := ANCOUNT h; NSCOUNT := NSCOUNT h;
     ARCOUNT := ARCOUNT h |}.

(** ** Strings *)

(** [[]byte(s)] and [string(b)]. *)
Definition bytes_of_string (s : string) : list Z :=
  map (fun c => Z.of_N (N_of_ascii c)) (list_ascii_of_string s).

Definition string_of_bytes (b : list Z) : string :=
  string_of_list_ascii (map (fun x => ascii_of_N (Z.to_N x)) b).

(** [strings.Split(s, ".")]: the pieces of [s] between the dots; the empty
    string gives one empty piece. *)
Fixpoint Split_dot (s : string) : list string :=
  match s with
  | EmptyString => [EmptyString]
  | String c s' =>
      if Ascii.eqb c "."%char then EmptyString :: Split_dot s'
      else match Split_dot s' with
           | piece :: pieces => String c piece :: pieces
           | [] => [String c EmptyString]
           end
  end.

(** [strings.Join(elems, ".")]. *)
Fixpoint Join_dot (elems : list string) : string :=
  match elems with
  | [] => EmptyString
  | [e] => e
  | e :: rest => (e ++ "." ++ Join_dot rest)%string
  end.

(** ** Questions and answers: encoding *)

(** The struct [DNSQuestion]; [Type] and [Class] are [Type_] and [Class_]. *)
Record DNSQuestion : Type := mkDNSQuestion {
  Name : string;
  Type_ : Z;     (* uint16 *)
  Class_ : Z     (* uint16 *)
}.

(** The struct [DNSAnswer]. *)
Record DNSAnswer : Type := mkDNSAnswer {
  AName : string;
  AType : Z;     (* uint16 *)
  AClass : Z;    (* uint16 *)
  TTL : Z;       (* uint32 *)
  RDLength : Z;  (* uint16 *)
  RData : list Z
}.

(** One turn of the loop over the labels, in both [Serialize] methods:
    [buf = append(buf, byte(len(label)))] and then
    [buf = append(buf, []byte(label)...)]. *)
Definition append_label (buf : list Z) (label : string) : list Z :=
  let buf := buf ++ [uint8 (Z.of_nat (String.length label))] in
  let buf := buf ++ bytes_of_string label in
  buf.

(** The name part of both [Serialize] methods: the loop over
    [for _, label := range labels], then [buf = append(buf, 0)]. *)
Definition Serialize_labels (labels : list string) : list Z :=
  let buf := [] in
  let buf := fold_left append_label labels buf in
  buf ++ [0].

(** [(q *DNSQuestion) Serialize()]. *)
Definition DNSQuestion_Serialize (q : DNSQuestion) : list Z :=
  let labels := Split_dot (Name q) in
  let buf := Serialize_labels labels in
  let qType := BigEndian.PutUint16 (Type_ q) in
  let buf := buf ++ qType in
  let class := BigEndian.PutUint16 (Class_ q) in
  let buf := buf ++ class in
  buf.

(** [(a *DNSAnswer) Serialize()]. *)
Definition DNSAnswer_Serialize (a : DNSAnswer) : list Z :=
  let labels := Split_dot (AName a) in
  let buf := Serialize_labels labels in
  let typeBytes := BigEndian.PutUint16 (AType a) in
  let buf := buf ++ typeBytes in
  let classBytes := BigEndian.PutUint16 (AClass a) in
  let buf := buf ++ classBytes in
  let ttlBytes := BigEndian.PutUint32 (TTL a) in
  let buf := buf ++ ttlBytes in
  let rdLengthBytes := BigEndian.PutUint16 (RDLength a) in
  let buf := buf ++ rdLengthBytes in
  let buf := buf ++ RData a in
  buf.

(** ** Questions: decoding *)

(** How a call ends: it returns, it stops on a run-time panic (an index or
    a slice bound out of range), or it never ends. *)
Inductive outcome (A : Type) : Type :=
| Returned (a : A)
| Panicked
| Diverged.
Arguments Returned {A} a.
Arguments Panicked {A}.
Arguments Diverged {A}.

(** One turn of the [for] loop of [parseDNSQuestion] on the remaining
    [data] and the labels read so far. *)
Inductive turn : Type :=
| Break
| Continue (data : list Z) (name : list string)
| Panic.

(** [labelSize := int(data[0])] panics on an empty slice.  The two slice
    expressions [data[1:labelSize+1]] and [data[labelSize+1:]] together
    panic exactly when [labelSize+1] exceeds [len(data)]: the first one
    only checks the capacity, the second one the length, and when both
    pass the label lies within the length. *)
Definition loop_turn (data : list Z) (name : list string) : turn :=
  match data with
  | [] => Panic
  | labelSize :: _ =>
      if labelSize =? 0 then Break
      else if (1 <=? labelSize + 1) && (labelSize + 1 <=? len data) then
        let hi := Z.to_nat (labelSize + 1) in
        Continue (skipn hi data) (name ++ [string_of_bytes (slice 1 hi data)])
      else Panic
  end.

(** The state in which the loop stops. *)
Inductive loop_end : Type :=
| Done (data : list Z) (name : list string)
| Crashed
| OutOfFuel.

(** The [for] loop, run for at most [fuel] turns. *)
Fixpoint name_loop (fuel : nat) (data : list Z) (name : list string) : loop_end :=
  match fuel with
  | O => OutOfFuel
  | S fuel' =>
      match loop_turn data name with
      | Break => Done data name
      | Continue data' name' => name_loop fuel' data' name'
      | Panic => Crashed
      end
  end.

(** [parseDNSQuestion]: the pair [(question, err)] it returns.  The loop is
    given one turn per byte of [data] and one more. *)
Definition parseDNSQuestion (data : list Z) : outcome (DNSQuestion * option string) :=
  match name_loop (S (List.length data)) data [] with
  | OutOfFuel => Diverged
  | Crashed => Panicked
  | Done data name =>
      let question := {| Name := Join_dot name; Type_ := 0; Class_ := 0 |} in
      let data := skipn 1 data in
      if len data <? 4 then Returned (question, Some "invalid question format"%string)
      else
        let qtype := BigEndian.Uint16 (slice 0 2 data) in
        let data := skipn 2 data in
        let qclass := BigEndian.Uint16 (slice 0 2 data) in
        Returned ({| Name := Name question; Type_ := qtype; Class_ := qclass |}, None)
  end.

(** The message of [TestParseDNSQuestions]: a header with QDCOUNT 2, the
    question abc.longassdomainname.com, and the question def followed by a
    pointer (192, 16) to offset 16. *)
Definition test_message : list Z :=
  [16; 129; 1; 0; 0; 2; 0; 0; 0; 0; 0; 0;
   3; 97; 98; 99;
   17; 108; 111; 110; 103; 97; 115; 115; 100; 111; 109; 97; 105; 110; 110; 97; 109; 101;
   3; 99; 111; 109; 0; 0; 1; 0; 1;
   3; 100; 101; 102; 192; 16; 0; 1; 0; 1].

(** The bytes of one label: its length, then its content. *)
Definition label_bytes (label : string) : list Z :=
  Z.of_nat (String.length label) :: bytes_of_string label.

(** The bytes [lo] to [hi] of an encoded answer, counted from the end of
    its name. *)
Definition answer_field (lo hi : nat) (a : DNSAnswer) : list Z :=
  let n := List.length (Serialize_labels (Split_dot (AName a))) in
  slice (n + lo) (n + hi) (DNSAnswer_Serialize a).

(** The bytes of an encoded answer from offset [lo] after its name on. *)
Definition answer_from (lo : nat) (a : DNSAnswer) : list Z :=
  let n := List.length (Serialize_labels (Split_dot (AName a))) in
  skipn (n + lo) (DNSAnswer_Serialize a).

(** The answer of [handleDNSRequest], but with RDLength left at zero. *)
Definition zero_rdlength_answer : DNSAnswer :=
  {| AName := "a.b"; AType := 1; AClass := 1; TTL := 60; RDLength := 0;
     RData := [8; 8; 8; 8] |}.

(** The answer of [handleDNSRequest] for the name a.b. *)
Definition sample_answer : DNSAnswer :=
  {| AName := "a.b"; AType := 1; AClass := 1; TTL := 60; RDLength := 4;
     RData := [8; 8; 8; 8] |}.

(** A string of [n] times the character [c]. *)
Fixpoint string_repeat (c : ascii) (n : nat) : string :=
  match n with
  | O => EmptyString
  | S n' => String c (string_repeat c n')
  end.

(** A label of 64 bytes and one of 256 bytes. *)
Definition label64 : string := string_repeat "a" 64.
Definition label256 : string := string_repeat "a" 256.

(** A message whose question is a pointer (192, 12) to offset 12, its own
    offset, followed by a type and a class. *)
Definition self_pointer_message : list Z :=
  [0; 1; 1; 0; 0; 1; 0; 0; 0; 0; 0; 0;
   192; 12; 0; 1; 0; 1].

(** A message with the label sequence a, closed by its zero byte, at
    offset 0, and whose question at offset 12 is def followed by a pointer
    (192, 0) to offset 0, then a type and a class. *)
Definition pointer_message : list Z :=
  [1; 97; 0; 0; 0; 1; 0; 0; 0; 0; 0; 0;
   3; 100; 101; 102; 192; 0; 0; 1; 0; 1].

(** What [handleDNSRequest] hands to [parseDNSQuestion]: [data[12:]]. *)
Definition question_section (data : list Z) : list Z := skipn 12 data.

(** A query header: every field zero, QR clear. *)
Definition query_header : Header :=
  {| ID := 0; QR := false; OPCODE := 0; AA := false; TC := false; RD := false;
     RA := false; Z_ := 0; RCODE := 0; QDCOUNT := 0; ANCOUNT := 0;
     NSCOUNT := 0; ARCOUNT := 0 |}.

(** A header whose OPCODE, Z and RCODE fill their eight bits. *)
Definition wide_header : Header :=
  {| ID := 0x1234; QR := false; OPCODE := 0xFF; AA := false; TC := true;
     RD := false; RA := false; Z_ := 0xFF; RCODE := 0xFF; QDCOUNT := 1;
     ANCOUNT := 0; NSCOUNT := 0; ARCOUNT := 0 |}.

(** A reply header within the declared widths. *)
Definition reply_header : Header :=
  {| ID := 0x1234; QR := true; OPCODE := 2; AA := true; TC := false;
     RD := true; RA := false; Z_ := 5; RCODE := 3; QDCOUNT := 1;
     ANCOUNT := 1; NSCOUNT := 0; ARCOUNT := 0 |}.

(** The input of the case valid_case of [TestParseDnsHeader]. *)
Definition test_header_bytes : list Z :=
  [0; 0; 0x01; 0x02; 0x01; 0x02; 0x03; 0x04; 0x05; 0x06; 0x07; 0x08].

(** ** The reply of the question server *)

(** The file of [DNSHeader], [createDNSReply] and [handleDNSRequest]; its
    header struct has the names of [Header]'s fields, hence the module. *)
Module Reply.

Definition packetID : Z := 1234.
Definition queryResponse : Z := 1.
Definition opcode : Z := 0.
Definition authoritativeAnswer : Z := 0.
Definition truncation : Z := 0.
Definition recursionDesired : Z := 0.
Definition recursionAvailable : Z := 0.
Definition responseCode : Z := 0.
Definition questionCount : Z := 1.
Definition answerCount : Z := 1.
Definition authorityCount : Z := 0.
Definition additionalCount : Z := 0.

(** The struct [DNSHeader]: the flags are one 16-bit word. *)
Record DNSHeader : Type := mkDNSHeader {
  ID : Z;        (* uint16 *)
  Flags : Z;     (* uint16 *)
  QDCOUNT : Z;   (* uint16 *)
  ANCOUNT : Z;   (* uint16 *)
  NSCOUNT : Z;   (* uint16 *)
  ARCOUNT : Z    (* uint16 *)
}.

(** [(h *DNSHeader) Serialize()]: six [PutUint16] into a buffer of 12
    bytes, at the offsets 0, 2, 4, 6, 8 and 10. *)
Definition Serialize (h : DNSHeader) : list Z :=
  BigEndian.PutUint16 (ID h) ++ BigEndian.PutUint16 (Flags h)
  ++ BigEndian.PutUint16 (QDCOUNT h) ++ BigEndian.PutUint16 (ANCOUNT h)
  ++ BigEndian.PutUint16 (NSCOUNT h) ++ BigEndian.PutUint16 (ARCOUNT h).

(** The flag word of [createDNSReply]. *)
Definition flags : Z :=
  Z.lor (Z.lor (Z.lor (Z.lor (Z.lor (Z.lor
    (Z.shiftl queryResponse 15)
    (Z.shiftl opcode 11))
    (Z.shiftl authoritativeAnswer 10))
    (Z.shiftl truncation 9))
    (Z.shiftl recursionDesired 8))
    (Z.shiftl recursionAvailable 7))
    responseCode.

(** [createDNSReply(question, answer)]: the header, the question and the
    answer, appended in this order. *)
Definition createDNSReply (question : DNSQuestion) (answer : DNSAnswer) : list Z :=
  let header :=
    {| ID := packetID; Flags := uint16 flags; QDCOUNT := questionCount;
       ANCOUNT := answerCount; NSCOUNT := authorityCount;
       ARCOUNT := additionalCount |} in
  (Serialize header ++ DNSQuestion_Serialize question)
  ++ DNSAnswer_Serialize answer.

(** [handleDNSRequest] on the datagram [data]: the bytes it hands to
    [conn.WriteToUDP], or [None] when it logs the error of
    [parseDNSQuestion] and sends nothing.  [data[12:]] panics on a datagram
    of fewer than 12 bytes. *)
Definition handleDNSRequest (data : list Z) : outcome (option (list Z)) :=
  if len data <? 12 then Panicked
  else
    match parseDNSQuestion (skipn 12 data) with
    | Diverged => Diverged
    | Panicked => Panicked
    | Returned (question, Some err) => Returned None
    | Returned (question, None) =>
        let answer :=
          {| AName := Name question; AType := 1; AClass := 1; TTL := 60;
             RDLength := 4; RData := [8; 8; 8; 8] |} in
        let reply := createDNSReply question answer in
        Returned (Some reply)
    end.

End Reply.

(** ** The header server *)

(** One turn of the loop of [main] in the file of [parseDnsHeader], on the
    datagram [buf[:size]]: the response it writes back, or [None] when it
    reports an error and goes on to the next datagram. *)
Definition main_turn (buf : list Z) : option (list Z) :=
  match parseDnsHeader buf with
  | Err _ => None
  | Ok header =>
      match buildResponse header with
      | (_, (response, Some _)) => None
      | (_, (response, None)) => Some response
      end
  end.

(** ** Labels *)

(** Whether a string holds a dot. *)
Fixpoint has_dot (s : string) : bool :=
  match s with
  | EmptyString => false
  | String c s' => Ascii.eqb c "."%char || has_dot s'
  end.


(** The labels a name can be made of so that it decodes to itself: 1 to
    255 bytes each. *)
Definition label_ok (label : string) : Prop :=
  (1 <= String.length label <= 255)%nat.

(** The header of every reply of [Reply.createDNSReply], decoded. *)
Definition reply_header_1234 : Header :=
  {| ID := 1234; QR := true; OPCODE := 0; AA := false; TC := false;
     RD := false; RA := false; Z_ := 0; RCODE := 0; QDCOUNT := 1;
     ANCOUNT := 1; NSCOUNT := 0; ARCOUNT := 0 |}.

(** A query for abc.com, type 1, class 1, with the ID 0xBEEF and two
    bytes after the question. *)
Definition sample_query : list Z :=
  [0xBE; 0xEF; 1; 0; 0; 1; 0; 0; 0; 0; 0; 0;
   3; 97; 98; 99; 3; 99; 111; 109; 0; 0; 1; 0; 1;
   7; 7].

(** ** Bit operations as arithmetic *)

Section BitArith.

Lemma land_disjoint a b n :
  0 <= n -> 0 <= b < 2 ^ n -> a mod 2 ^ n = 0 -> Z.land a b = 0.
Proof.
  intros Hn Hb Ha. apply Z.bits_inj'. intros i Hi.
  rewrite Z.land_spec, Z.bits_0.
  destruct (Z.lt_ge_cases i n) as [Hlt | Hge].
  - rewrite <- (Z.mod_pow2_bits_low a n i) by lia.
    rewrite Ha, Z.bits_0. reflexivity.
  - rewrite <- (Z.mod_small b (2 ^ n)) by lia.
    rewrite Z.mod_pow2_bits_high by lia. apply andb_false_r.
Qed.

(** Or-ing a value into bits that are all clear adds it. *)
Lemma lor_add a b n :
  0 <= n -> 0 <= b < 2 ^ n -> a mod 2 ^ n = 0 -> Z.lor a b = a + b.
Proof.
  intros Hn Hb Ha. pose proof (land_disjoint a b n Hn Hb Ha) as Hd.
  rewrite <- Z.lxor_lor by exact Hd.
  symmetry. apply Z.add_nocarry_lxor. exact Hd.
Qed.

(** Masking with a single bit. *)
Lemma land_bit a k :
  0 <= k -> Z.land a (2 ^ k) = 2 ^ k * ((a / 2 ^ k) mod 2).
Proof.
  intros Hk. apply Z.bits_inj'. intros i Hi.
  rewrite Z.land_spec, Z.pow2_bits_eqb by lia.
  destruct (Z.eqb_spec k i) as [->|Hne].
  - rewrite andb_true_r. rewrite Z.mul_comm, Z.mul_pow2_bits by lia.
    rewrite Z.sub_diag. rewrite <- Z.shiftr_div_pow2 by lia.
    change ((Z.shiftr a i) mod 2) with ((Z.shiftr a i) mod 2 ^ 1).
    rewrite Z.mod_pow2_bits_low by lia.
    rewrite Z.shiftr_spec by lia. reflexivity.
  - rewrite andb_false_r. rewrite Z.mul_comm, Z.mul_pow2_bits by lia.
    destruct (Z.lt_ge_cases i k).
    + rewrite Z.testbit_neg_r by lia. reflexivity.
    + change ((a / 2 ^ k) mod 2) with ((a / 2 ^ k) mod 2 ^ 1).
      rewrite Z.mod_pow2_bits_high by lia. reflexivity.
Qed.

Lemma nonzero_land_bit a k :
  0 <= k -> nonzero (Z.land a (2 ^ k)) = ((a / 2 ^ k) mod 2 =? 1).
Proof.
  intros Hk. unfold nonzero. rewrite land_bit by exact Hk.
  assert (0 < 2 ^ k) by (apply Z.pow_pos_nonneg; lia).
  pose proof (Z.mod_pos_bound (a / 2 ^ k) 2 ltac:(lia)).
  destruct (Z.eqb_spec ((a / 2 ^ k) mod 2) 1) as [-> | Hne].
  - rewrite Z.mul_1_r. destruct (Z.eqb_spec (2 ^ k) 0); [lia | reflexivity].
  - replace ((a / 2 ^ k) mod 2) with 0 by lia.
    rewrite Z.mul_0_r. reflexivity.
Qed.

Lemma land_low a n : 0 <= n -> Z.land a (2 ^ n - 1) = a mod 2 ^ n.
Proof.
  intros Hn. rewrite <- Z.land_ones by exact Hn.
  rewrite Z.ones_equiv, <- Z.sub_1_r. reflexivity.
Qed.

End BitArith.

(** ** The header codec *)

(** Powers of two that occur in the code, as numerals. *)
Ltac pow2 :=
  change (2 ^ 32) with 4294967296 in *; change (2 ^ 24) with 16777216 in *;
  change (2 ^ 16) with 65536 in *; change (2 ^ 15) with 32768 in *;
  change (2 ^ 11) with 2048 in *; change (2 ^ 10) with 1024 in *;
  change (2 ^ 9) with 512 in *; change (2 ^ 8) with 256 in *;
  change (2 ^ 7) with 128 in *; change (2 ^ 4) with 16 in *;
  change (2 ^ 3) with 8 in *; change (2 ^ 2) with 4 in *;
  change (2 ^ 1) with 2 in *; change (2 ^ 0) with 1 in *.

Ltac divmod := pow2; Z.div_mod_to_equations; lia.

Lemma mod_mod_pow2 a m n : 0 <= n <= m -> (a mod 2 ^ m) mod 2 ^ n = a mod 2 ^ n.
Proof.
  intros H. apply Z.mod_mod_divide.
  exists (2 ^ (m - n)). rewrite <- Z.pow_add_r by lia. f_equal. lia.
Qed.

Lemma boolToUint16_range b : 0 <= boolToUint16 b <= 1.
Proof. destruct b; simpl; lia. Qed.

(** The sixteen bits of the flag word, as a sum. *)
Lemma response_flags_sum h :
  response_flags h =
  32768 + 2048 * (OPCODE h mod 16) + 1024 * boolToUint16 (AA h)
  + 512 * boolToUint16 (TC h) + 256 * boolToUint16 (RD h)
  + 128 * boolToUint16 (RA h) + 16 * (Z_ h mod 8) + RCODE h mod 16.
Proof.
  unfold response_flags, OPCODE_Mask, uint16.
  pose proof (boolToUint16_range (AA h)) as Haa.
  pose proof (boolToUint16_range (TC h)) as Htc.
  pose proof (boolToUint16_range (RD h)) as Hrd.
  pose proof (boolToUint16_range (RA h)) as Hra.
  change 0x0F with (2 ^ 4 - 1). change 0x07 with (2 ^ 3 - 1).
  rewrite !land_low by lia. rewrite !Z.shiftl_mul_pow2 by lia.
  change (0 mod 2 ^ 16) with 0. rewrite Z.lor_0_l.
  set (o := OPCODE h mod 16).
  set (z := Z_ h mod 8).
  set (r := RCODE h mod 16).
  rewrite !mod_mod_pow2 by lia.
  change (OPCODE h mod 2 ^ 4) with o.
  change (Z_ h mod 2 ^ 3) with z.
  change (RCODE h mod 2 ^ 4) with r.
  assert (0 <= o < 16) by (subst o; divmod).
  assert (0 <= z < 8) by (subst z; divmod).
  assert (0 <= r < 16) by (subst r; divmod).
  rewrite !Z.mod_small by lia.
  rewrite (lor_add 32768 _ 15) by divmod.
  rewrite (lor_add (_ + _) _ 11) by divmod.
  rewrite (lor_add (_ + _) _ 10) by divmod.
  rewrite (lor_add (_ + _) _ 9) by divmod.
  rewrite (lor_add (_ + _) _ 8) by divmod.
  rewrite (lor_add (_ + _) _ 7) by divmod.
  rewrite (lor_add (_ + _) _ 4) by divmod.
  pow2. lia.
Qed.

(** Reading back the two bytes of a 16-bit value. *)
Lemma Uint16_PutUint16 v :
  BigEndian.Uint16 (BigEndian.PutUint16 v) = uint16 v.
Proof.
  unfold BigEndian.Uint16, BigEndian.PutUint16, uint16, uint8. cbn [nth].
  rewrite Z.shiftr_div_pow2, Z.shiftl_mul_pow2 by lia.
  rewrite Z.lor_comm.
  rewrite (lor_add _ _ 8) by divmod.
  divmod.
Qed.

Lemma Uint16_PutUint16_id v :
  is_uint16 v -> BigEndian.Uint16 (BigEndian.PutUint16 v) = v.
Proof.
  intros Hv. rewrite Uint16_PutUint16. apply Z.mod_small. exact Hv.
Qed.

(** The twelve bytes [buildResponse] writes. *)
Lemma response_bytes_eq h :
  response_bytes h =
  BigEndian.PutUint16 (ID h) ++ BigEndian.PutUint16 (response_flags h)
  ++ BigEndian.PutUint16 (QDCOUNT h) ++ BigEndian.PutUint16 (ANCOUNT h)
  ++ BigEndian.PutUint16 (NSCOUNT h) ++ BigEndian.PutUint16 (ARCOUNT h).
Proof. reflexivity. Qed.

Lemma response_bytes_length h : List.length (response_bytes h) = 12%nat.
Proof. reflexivity. Qed.

(** The header read off a buffer that starts with twelve given bytes. *)
Lemma parseDnsHeader_bytes b0 b1 b2 b3 b4 b5 b6 b7 b8 b9 b10 b11 rest :
  parseDnsHeader (b0 :: b1 :: b2 :: b3 :: b4 :: b5 :: b6 :: b7 :: b8 :: b9 :: b10 :: b11 :: rest) =
  Ok {| ID := BigEndian.Uint16 [b0; b1];
        QR := nonzero (Z.land b2 0x80);
        OPCODE := Z.land (Z.shiftr b2 3) 0x0F;
        AA := nonzero (Z.land b2 0x04);
        TC := nonzero (Z.land b2 0x02);
        RD := nonzero (Z.land b2 0x01);
        RA := nonzero (Z.land b3 0x80);
        Z_ := Z.land (Z.shiftr b3 4) 0x07;
        RCODE := Z.land b3 0x0F;
        QDCOUNT := BigEndian.Uint16 [b4; b5];
        ANCOUNT := BigEndian.Uint16 [b6; b7];
        NSCOUNT := BigEndian.Uint16 [b8; b9];
        ARCOUNT := BigEndian.Uint16 [b10; b11] |}.
Proof.
  unfold parseDnsHeader.
  destruct (Z.ltb_spec (len (b0 :: b1 :: b2 :: b3 :: b4 :: b5 :: b6 :: b7 :: b8 :: b9 :: b10 :: b11 :: rest)) 12) as [Hlt | _].
  - unfold len in Hlt. cbn [List.length] in Hlt. lia.
  - reflexivity.
Qed.

(** The flag bytes of a response, read back field by field. *)
Section FlagBytes.
Variable h : Header.
Local Abbreviation hi := (uint8 (Z.shiftr (response_flags h) 8)).
Local Abbreviation lo := (uint8 (response_flags h)).

Lemma hi_sum :
  hi = 128 + 8 * (OPCODE h mod 16) + 4 * boolToUint16 (AA h)
       + 2 * boolToUint16 (TC h) + boolToUint16 (RD h).
Proof.
  unfold uint8. rewrite response_flags_sum, Z.shiftr_div_pow2 by lia.
  pose proof (boolToUint16_range (AA h)). pose proof (boolToUint16_range (TC h)).
  pose proof (boolToUint16_range (RD h)). pose proof (boolToUint16_range (RA h)).
  divmod.
Qed.

Lemma lo_sum :
  lo = 128 * boolToUint16 (RA h) + 16 * (Z_ h mod 8) + RCODE h mod 16.
Proof.
  unfold uint8. rewrite response_flags_sum.
  pose proof (boolToUint16_range (AA h)). pose proof (boolToUint16_range (TC h)).
  pose proof (boolToUint16_range (RD h)). pose proof (boolToUint16_range (RA h)).
  divmod.
Qed.

Ltac flag_bit k :=
  change (nonzero (Z.land ?x _)) with (nonzero (Z.land x (2 ^ k)));
  rewrite nonzero_land_bit by lia;
  first [rewrite hi_sum | rewrite lo_sum];
  destruct (AA h), (TC h), (RD h), (RA h); cbn [boolToUint16];
  match goal with
  | |- (?e =? 1) = _ => destruct (Z.eqb_spec e 1)
  end; first [reflexivity | exfalso; divmod].

Lemma hi_QR : nonzero (Z.land hi 0x80) = true.
Proof. flag_bit 7. Qed.

Lemma hi_AA : nonzero (Z.land hi 0x04) = AA h.
Proof. flag_bit 2. Qed.

Lemma hi_TC : nonzero (Z.land hi 0x02) = TC h.
Proof. flag_bit 1. Qed.

Lemma hi_RD : nonzero (Z.land hi 0x01) = RD h.
Proof. flag_bit 0. Qed.

Lemma lo_RA : nonzero (Z.land lo 0x80) = RA h.
Proof. flag_bit 7. Qed.

Lemma hi_OPCODE : Z.land (Z.shiftr hi 3) 0x0F = OPCODE h mod 16.
Proof.
  change 0x0F with (2 ^ 4 - 1). rewrite land_low, Z.shiftr_div_pow2, hi_sum by lia.
  pose proof (boolToUint16_range (AA h)). pose proof (boolToUint16_range (TC h)).
  pose proof (boolToUint16_range (RD h)).
  divmod.
Qed.

Lemma lo_Z : Z.land (Z.shiftr lo 4) 0x07 = Z_ h mod 8.
Proof.
  change 0x07 with (2 ^ 3 - 1). rewrite land_low, Z.shiftr_div_pow2, lo_sum by lia.
  pose proof (boolToUint16_range (RA h)).
  divmod.
Qed.

Lemma lo_RCODE : Z.land lo 0x0F = RCODE h mod 16.
Proof.
  change 0x0F with (2 ^ 4 - 1). rewrite land_low, lo_sum by lia.
  pose proof (boolToUint16_range (RA h)).
  divmod.
Qed.

End FlagBytes.

(** Decoding the bytes of a response gives the header back as a reply,
    its multi-bit fields cut to their widths. *)
Lemma parseDnsHeader_response h :
  Header_wf h -> parseDnsHeader (response_bytes h) = Ok (masked h).
Proof.
  intros [HID Hop Hz Hr Hqd Han Hns Har].
  rewrite response_bytes_eq. unfold BigEndian.PutUint16. cbn [app].
  rewrite parseDnsHeader_bytes.
  rewrite hi_QR, hi_AA, hi_TC, hi_RD, lo_RA, hi_OPCODE, lo_Z, lo_RCODE.
  fold (BigEndian.PutUint16 (ID h)). fold (BigEndian.PutUint16 (QDCOUNT h)).
  fold (BigEndian.PutUint16 (ANCOUNT h)). fold (BigEndian.PutUint16 (NSCOUNT h)).
  fold (BigEndian.PutUint16 (ARCOUNT h)).
  rewrite !Uint16_PutUint16_id by assumption.
  reflexivity.
Qed.

Lemma masked_valid h : Header_valid h -> masked h = set_QR true h.
Proof.
  intros [[HID Hop Hz Hr Hqd Han Hns Har] Hop' Hz' Hr'].
  unfold masked, set_QR, is_uint8 in *.
  rewrite !Z.mod_small by lia. reflexivity.
Qed.

Ltac wf_closed :=
  repeat constructor; unfold is_uint16, is_uint8; cbn; lia.

(** C1, as the code has it: for every valid header [h], decoding the
    twelve bytes [buildResponse] produces gives [h] with QR set, which is
    also the header as the call leaves it; it is [h] itself when [h] is a
    reply already. *)
Theorem buildResponse_parseDnsHeader_roundtrip h :
  Header_valid h ->
  parseDnsHeader (response_bytes h) = Ok (set_QR true h)
  /\ fst (buildResponse h) = set_QR true h
  /\ (if QR h then parseDnsHeader (response_bytes h) = Ok h else True).
Proof.
  intros Hv.
  assert (Hp : parseDnsHeader (response_bytes h) = Ok (set_QR true h)).
  { rewrite parseDnsHeader_response by (destruct Hv; assumption).
    rewrite masked_valid by exact Hv. reflexivity. }
  split; [exact Hp | split; [reflexivity |]].
  destruct h as [i q o a t r ra z rc qd an ns ar]. destruct q; [exact Hp | exact I].
Qed.

Lemma buildResponse_parseDnsHeader_roundtrip_witness :
  Header_valid reply_header
  /\ parseDnsHeader (response_bytes reply_header) = Ok reply_header.
Proof.
  assert (Hv : Header_valid reply_header) by wf_closed.
  split; [exact Hv |].
  exact (proj2 (proj2 (buildResponse_parseDnsHeader_roundtrip reply_header Hv))).
Defined.

(** C1 as stated fails: the query header is valid, and encoding then
    decoding it gives a header whose QR is set, not the query header. *)
Lemma roundtrip_changes_QR :
  Header_valid query_header
  /\ parseDnsHeader (response_bytes query_header) = Ok (set_QR true query_header)
  /\ parseDnsHeader (response_bytes query_header) <> Ok query_header.
Proof.
  split; [wf_closed |]. split; [reflexivity |]. discriminate.
Qed.

(** C4: the header of the test decodes to QR clear, OPCODE 0, AA and TC
    clear, RD set, RA clear, Z 0, RCODE 2 and the counts 0x0102, 0x0304,
    0x0506, 0x0708; and on any buffer that starts with twelve bytes each
    flag is the stated shift and mask of bytes 2 and 3. *)
Theorem parseDnsHeader_test_header :
  parseDnsHeader test_header_bytes =
  Ok {| ID := 0; QR := false; OPCODE := 0; AA := false; TC := false; RD := true;
        RA := false; Z_ := 0; RCODE := 2; QDCOUNT := 0x0102; ANCOUNT := 0x0304;
        NSCOUNT := 0x0506; ARCOUNT := 0x0708 |}
  /\ forall b0 b1 b2 b3 b4 b5 b6 b7 b8 b9 b10 b11 rest,
      exists h,
        parseDnsHeader (b0 :: b1 :: b2 :: b3 :: b4 :: b5 :: b6 :: b7 :: b8 :: b9 :: b10 :: b11 :: rest) = Ok h
        /\ QR h = nonzero (Z.land b2 0x80)
        /\ OPCODE h = Z.land (Z.shiftr b2 3) 0x0F
        /\ AA h = nonzero (Z.land b2 0x04)
        /\ TC h = nonzero (Z.land b2 0x02)
        /\ RD h = nonzero (Z.land b2 0x01)
        /\ RA h = nonzero (Z.land b3 0x80)
        /\ Z_ h = Z.land (Z.shiftr b3 4) 0x07
        /\ RCODE h = Z.land b3 0x0F.
Proof.
  split; [reflexivity |]. intros.
  eexists. split; [apply parseDnsHeader_bytes |].
  cbn [QR OPCODE AA TC RD RA Z_ RCODE]. repeat split.
Qed.

(** C5: a buffer of fewer than 12 bytes, the one-byte buffer 0x01 among
    them, makes [parseDnsHeader] return its error (buffer too short, the
    truncated-input error) and no header; a buffer of 12 bytes or more
    makes it return a header. *)
Theorem parseDnsHeader_short_buffer buf :
  ((List.length buf < 12)%nat -> parseDnsHeader buf = Err "buffer too short")
  /\ ((12 <= List.length buf)%nat -> exists h, parseDnsHeader buf = Ok h)
  /\ parseDnsHeader [0x01] = Err "buffer too short".
Proof.
  unfold parseDnsHeader, len. repeat split.
  - intros Hlt. destruct (Z.ltb_spec (Z.of_nat (List.length buf)) 12); [reflexivity | lia].
  - intros Hge. destruct (Z.ltb_spec (Z.of_nat (List.length buf)) 12); [lia | eexists; reflexivity].
Qed.

Lemma parseDnsHeader_short_buffer_witness :
  parseDnsHeader [0x01; 0x02; 0x03] = Err "buffer too short"
  /\ exists h, parseDnsHeader test_header_bytes = Ok h.
Proof.
  split.
  - apply (proj1 (parseDnsHeader_short_buffer [0x01; 0x02; 0x03])). cbn. lia.
  - apply (proj1 (proj2 (parseDnsHeader_short_buffer test_header_bytes))). cbn. lia.
Defined.

(** C9: for every header, whatever its OPCODE, Z and RCODE hold, the
    encoding is 12 bytes long, each field lies in its own bits of the flag
    word, and decoding gives every other field back unchanged with OPCODE,
    Z and RCODE cut to 4, 3 and 4 bits. *)
Theorem buildResponse_masks_fields h :
  Header_wf h ->
  List.length (response_bytes h) = 12%nat
  /\ response_flags h =
     32768 + 2048 * (OPCODE h mod 16) + 1024 * boolToUint16 (AA h)
     + 512 * boolToUint16 (TC h) + 256 * boolToUint16 (RD h)
     + 128 * boolToUint16 (RA h) + 16 * (Z_ h mod 8) + RCODE h mod 16
  /\ parseDnsHeader (response_bytes h) =
     Ok {| ID := ID h; QR := true; OPCODE := OPCODE h mod 16; AA := AA h;
           TC := TC h; RD := RD h; RA := RA h; Z_ := Z_ h mod 8;
           RCODE := RCODE h mod 16; QDCOUNT := QDCOUNT h; ANCOUNT := ANCOUNT h;
           NSCOUNT := NSCOUNT h; ARCOUNT := ARCOUNT h |}.
Proof.
  intros Hwf. split; [apply response_bytes_length |].
  split; [apply response_flags_sum |].
  apply parseDnsHeader_response. exact Hwf.
Qed.

Lemma buildResponse_masks_fields_witness :
  Header_wf wide_header
  /\ parseDnsHeader (response_bytes wide_header) =
     Ok {| ID := 0x1234; QR := true; OPCODE := 15; AA := false; TC := true;
           RD := false; RA := false; Z_ := 7; RCODE := 15; QDCOUNT := 1;
           ANCOUNT := 0; NSCOUNT := 0; ARCOUNT := 0 |}.
Proof.
  assert (Hwf : Header_wf wide_header) by wf_closed.
  split; [exact Hwf |].
  exact (proj2 (proj2 (buildResponse_masks_fields wide_header Hwf))).
Defined.

(** C10: for every valid header [h], the twelve bytes of the response
    decode to a header with the ID, OPCODE, AA, TC, RD, RA, Z, RCODE and
    the four counts of [h], and with QR set whatever [QR h] is. *)
Theorem buildResponse_preserves_fields h :
  Header_valid h ->
  List.length (response_bytes h) = 12%nat
  /\ exists h',
       parseDnsHeader (response_bytes h) = Ok h'
       /\ ID h' = ID h /\ OPCODE h' = OPCODE h /\ AA h' = AA h /\ TC h' = TC h
       /\ RD h' = RD h /\ RA h' = RA h /\ Z_ h' = Z_ h /\ RCODE h' = RCODE h
       /\ QDCOUNT h' = QDCOUNT h /\ ANCOUNT h' = ANCOUNT h
       /\ NSCOUNT h' = NSCOUNT h /\ ARCOUNT h' = ARCOUNT h
       /\ QR h' = true.
Proof.
  intros Hv. split; [apply response_bytes_length |].
  exists (set_QR true h). split.
  - rewrite parseDnsHeader_response by (destruct Hv; assumption).
    rewrite masked_valid by exact Hv. reflexivity.
  - cbn. repeat split.
Qed.

Lemma buildResponse_preserves_fields_witness :
  Header_valid query_header
  /\ exists h',
       parseDnsHeader (response_bytes query_header) = Ok h'
       /\ ID h' = 0 /\ QR h' = true.
Proof.
  assert (Hv : Header_valid query_header) by wf_closed.
  split; [exact Hv |].
  destruct (proj2 (buildResponse_preserves_fields query_header Hv)) as [h' Hh'].
  exists h'. repeat split; apply Hh'.
Defined.

(** ** Strings and bytes *)

Lemma bytes_of_string_length s :
  List.length (bytes_of_string s) = String.length s.
Proof.
  unfold bytes_of_string. rewrite length_map.
  induction s as [| c s IH]; cbn; [reflexivity | now rewrite IH].
Qed.

Lemma string_of_bytes_of_string s : string_of_bytes (bytes_of_string s) = s.
Proof.
  unfold string_of_bytes, bytes_of_string. rewrite map_map.
  induction s as [| c s IH]; cbn [list_ascii_of_string map string_of_list_ascii].
  - reflexivity.
  - rewrite IH, N2Z.id, ascii_N_embedding. reflexivity.
Qed.

Lemma Split_dot_nonempty s : Split_dot s <> [].
Proof.
  destruct s as [| c s]; cbn; [discriminate |].
  destruct (Ascii.eqb c "."); [discriminate |].
  destruct (Split_dot s); discriminate.
Qed.

(** Joining the pieces of a string gives the string back. *)
Lemma Join_dot_Split_dot s : Join_dot (Split_dot s) = s.
Proof.
  induction s as [| c s IH]; [reflexivity |].
  cbn [Split_dot]. destruct (Ascii.eqb_spec c ".") as [-> | Hc].
  - pose proof (Split_dot_nonempty s) as Hne.
    destruct (Split_dot s) as [| p ps] eqn:Hs; [contradiction |].
    change (Join_dot (EmptyString :: p :: ps))
      with (String "." (Join_dot (p :: ps))).
    now rewrite IH.
  - pose proof (Split_dot_nonempty s) as Hne.
    destruct (Split_dot s) as [| p ps] eqn:Hs; [contradiction |].
    destruct ps as [| p' ps'].
    + cbn in IH |- *. now rewrite IH.
    + change (Join_dot (String c p :: p' :: ps'))
        with (String c (p ++ "." ++ Join_dot (p' :: ps'))%string).
      change (Join_dot (p :: p' :: ps'))
        with (p ++ "." ++ Join_dot (p' :: ps'))%string in IH.
      now rewrite IH.
Qed.

(** ** Name encoding *)

Lemma append_label_fold labels : forall buf,
  fold_left append_label labels buf =
  buf ++ flat_map (fun l => uint8 (Z.of_nat (String.length l)) :: bytes_of_string l) labels.
Proof.
  induction labels as [| l ls IH]; intros buf; cbn [fold_left flat_map].
  - now rewrite app_nil_r.
  - rewrite IH. unfold append_label. rewrite <- !app_assoc. reflexivity.
Qed.

Lemma Serialize_labels_uint8 labels :
  Serialize_labels labels =
  flat_map (fun l => uint8 (Z.of_nat (String.length l)) :: bytes_of_string l) labels ++ [0].
Proof.
  unfold Serialize_labels. rewrite append_label_fold. reflexivity.
Qed.

Lemma Serialize_labels_bytes labels :
  Forall (fun l => (String.length l <= 255)%nat) labels ->
  Serialize_labels labels = flat_map label_bytes labels ++ [0].
Proof.
  intros Hl. rewrite Serialize_labels_uint8. f_equal.
  induction Hl as [| l ls Hle _ IH]; [reflexivity |].
  cbn [flat_map]. rewrite IH. unfold label_bytes, uint8.
  rewrite Z.mod_small by (pow2; lia). reflexivity.
Qed.

(** ** Name decoding *)

(** A turn that goes on has consumed a length byte and at least one byte
    of label. *)
Lemma loop_turn_Continue data name data' name' :
  loop_turn data name = Continue data' name' ->
  (List.length data' + 2 <= List.length data)%nat.
Proof.
  unfold loop_turn. destruct data as [| labelSize rest]; [discriminate |].
  destruct (Z.eqb_spec labelSize 0) as [| Hnz]; [discriminate |].
  destruct (Z.leb_spec 1 (labelSize + 1)) as [Hlo |]; [| discriminate].
  destruct (Z.leb_spec (labelSize + 1) (len (labelSize :: rest))) as [Hhi |];
    [| discriminate].
  cbn [andb]. intros [= <- _]. rewrite length_skipn.
  unfold len in Hhi. lia.
Qed.

(** The loop stops within one turn per two bytes of input, and one more. *)
Lemma name_loop_terminates fuel : forall data name,
  (List.length data < 2 * fuel)%nat -> name_loop fuel data name <> OutOfFuel.
Proof.
  induction fuel as [| fuel IH]; intros data name Hlen; [lia |].
  cbn [name_loop]. destruct (loop_turn data name) as [| data' name' |] eqn:Hturn;
    try discriminate.
  apply IH. apply loop_turn_Continue in Hturn. lia.
Qed.

(** Turns that are not needed change nothing. *)
Lemma name_loop_more_fuel fuel : forall data name k,
  name_loop fuel data name <> OutOfFuel ->
  name_loop (fuel + k) data name = name_loop fuel data name.
Proof.
  induction fuel as [| fuel IH]; intros data name k Hend; [now contradiction Hend |].
  cbn [name_loop Nat.add] in *.
  destruct (loop_turn data name) as [| data' name' |]; try reflexivity.
  apply IH. exact Hend.
Qed.

Lemma flat_map_label_bytes_length labels :
  (List.length labels <= List.length (flat_map label_bytes labels))%nat.
Proof.
  induction labels as [| l ls IH]; cbn [flat_map List.length]; [lia |].
  rewrite length_app. unfold label_bytes at 1. cbn [List.length]. lia.
Qed.

(** One turn on the bytes of a label reads the label. *)
Lemma loop_turn_label l tail name :
  (1 <= String.length l <= 255)%nat ->
  loop_turn (label_bytes l ++ tail) name = Continue tail (name ++ [l]).
Proof.
  intros Hl. unfold label_bytes. cbn [app]. unfold loop_turn.
  set (n := String.length l) in *.
  destruct (Z.eqb_spec (Z.of_nat n) 0) as [| _]; [lia |].
  destruct (Z.leb_spec 1 (Z.of_nat n + 1)) as [_ |]; [| lia].
  destruct (Z.leb_spec (Z.of_nat n + 1) (len (Z.of_nat n :: bytes_of_string l ++ tail))) as [_ | Hgt].
  2:{ unfold len in Hgt. cbn [List.length] in Hgt.
      rewrite length_app, bytes_of_string_length in Hgt. fold n in Hgt. lia. }
  cbn [andb]. replace (Z.to_nat (Z.of_nat n + 1)) with (S n) by lia.
  unfold slice. cbn [skipn]. replace (S n - 1)%nat with n by lia.
  assert (Hn : List.length (bytes_of_string l) = n) by apply bytes_of_string_length.
  rewrite skipn_app, firstn_app, Hn, Nat.sub_diag.
  rewrite skipn_all2, firstn_all2 by lia. cbn [skipn firstn app].
  rewrite app_nil_r, string_of_bytes_of_string. reflexivity.
Qed.

(** The loop on an encoded name reads its labels and stops on the zero. *)
Lemma name_loop_labels labels : forall fuel name rest,
  Forall (fun l => (1 <= String.length l <= 255)%nat) labels ->
  (List.length labels < fuel)%nat ->
  name_loop fuel (flat_map label_bytes labels ++ 0 :: rest) name =
  Done (0 :: rest) (name ++ labels).
Proof.
  induction labels as [| l ls IH]; intros fuel name rest Hl Hfuel;
    (destruct fuel as [| fuel]; [cbn [List.length] in Hfuel; lia |]).
  - cbn. now rewrite app_nil_r.
  - inversion Hl as [| ? ? Hl1 Hls]; subst.
    cbn [flat_map name_loop]. rewrite <- app_assoc, loop_turn_label by exact Hl1.
    rewrite IH by (try assumption; cbn [List.length] in Hfuel; lia).
    rewrite <- app_assoc. reflexivity.
Qed.

(** Reading back the four bytes of a 32-bit value. *)
Lemma Uint32_PutUint32_id v :
  is_uint32 v -> BigEndian.Uint32 (BigEndian.PutUint32 v) = v.
Proof.
  unfold is_uint32, BigEndian.Uint32, BigEndian.PutUint32, uint32, uint8.
  intros Hv. cbn [nth].
  rewrite !Z.shiftr_div_pow2, !Z.shiftl_mul_pow2 by lia.
  set (b0 := (v / 2 ^ 24) mod 2 ^ 8). set (b1 := (v / 2 ^ 16) mod 2 ^ 8).
  set (b2 := (v / 2 ^ 8) mod 2 ^ 8). set (b3 := v mod 2 ^ 8).
  assert (0 <= b0 < 256) by (subst b0; divmod).
  assert (0 <= b1 < 256) by (subst b1; divmod).
  assert (0 <= b2 < 256) by (subst b2; divmod).
  assert (0 <= b3 < 256) by (subst b3; divmod).
  rewrite !(Z.mod_small b3), !(Z.mod_small b2), !(Z.mod_small b1), !(Z.mod_small b0) by (pow2; lia).
  rewrite !Z.mod_small by (pow2; lia).
  rewrite (Z.lor_comm b3), (lor_add (b2 * 2 ^ 8) b3 8) by divmod.
  rewrite (Z.lor_comm _ (b1 * 2 ^ 16)), (lor_add (b1 * 2 ^ 16) _ 16) by divmod.
  rewrite (Z.lor_comm _ (b0 * 2 ^ 24)), (lor_add (b0 * 2 ^ 24) _ 24) by divmod.
  subst b0 b1 b2 b3. divmod.
Qed.

Lemma slice_app_r {A : Type} (l r : list A) lo hi :
  slice (List.length l + lo) (List.length l + hi) (l ++ r) = slice lo hi r.
Proof.
  unfold slice. rewrite skipn_app, skipn_all2 by lia.
  replace (List.length l + lo - List.length l)%nat with lo by lia.
  replace (List.length l + hi - (List.length l + lo))%nat with (hi - lo)%nat by lia.
  reflexivity.
Qed.

(** What [parseDNSQuestion] returns on an encoded name followed by a type
    and a class. *)
Lemma parseDNSQuestion_labels labels qtype qclass tail :
  Forall (fun l => (1 <= String.length l <= 255)%nat) labels ->
  is_uint16 qtype -> is_uint16 qclass ->
  parseDNSQuestion
    (flat_map label_bytes labels ++ [0]
     ++ BigEndian.PutUint16 qtype ++ BigEndian.PutUint16 qclass ++ tail) =
  Returned ({| Name := Join_dot labels; Type_ := qtype; Class_ := qclass |}, None).
Proof.
  intros Hl Ht Hc. unfold parseDNSQuestion.
  cbn [app]. rewrite name_loop_labels.
  2: exact Hl.
  2:{ rewrite length_app. pose proof (flat_map_label_bytes_length labels). lia. }
  cbn [skipn app Name]. unfold BigEndian.PutUint16, len, slice.
  cbn [List.length app skipn firstn Nat.sub].
  destruct (Z.ltb_spec (Z.of_nat (S (S (S (S (List.length tail)))))) 4); [lia |].
  change [uint8 (Z.shiftr qtype 8); uint8 qtype] with (BigEndian.PutUint16 qtype).
  change [uint8 (Z.shiftr qclass 8); uint8 qclass] with (BigEndian.PutUint16 qclass).
  rewrite !Uint16_PutUint16_id by assumption. reflexivity.
Qed.

(** ** Questions *)



(** C6, as the code has it: for every list of labels of at most 255 bytes
    each, a label of 64 bytes or more included, the name encoding is, for
    each label in order, one byte holding its length and then its bytes,
    closed by a single zero byte.  The encoding has no error result. *)
Theorem Serialize_labels_encoding labels :
  Forall (fun l => (String.length l <= 255)%nat) labels ->
  Serialize_labels labels = flat_map label_bytes labels ++ [0]
  /\ (forall qtype qclass,
        DNSQuestion_Serialize
          {| Name := Join_dot labels; Type_ := qtype; Class_ := qclass |} =
        Serialize_labels (Split_dot (Join_dot labels))
        ++ BigEndian.PutUint16 qtype ++ BigEndian.PutUint16 qclass)
  /\ (forall a,
        exists rest,
          DNSAnswer_Serialize a = Serialize_labels (Split_dot (AName a)) ++ rest).
Proof.
  intros Hl. split; [now apply Serialize_labels_bytes |]. split.
  - intros qtype qclass. unfold DNSQuestion_Serialize. cbn [Name Type_ Class_].
    now rewrite <- app_assoc.
  - intros a. eexists. unfold DNSAnswer_Serialize.
    rewrite <- !app_assoc. reflexivity.
Qed.

Lemma Serialize_labels_encoding_witness :
  Serialize_labels [label64; "com"%string] =
  flat_map label_bytes [label64; "com"%string] ++ [0].
Proof.
  assert (H : Forall (fun l => (String.length l <= 255)%nat)
                     [label64; "com"%string])
    by (repeat constructor; cbn; lia).
  exact (proj1 (Serialize_labels_encoding [label64; "com"%string] H)).
Defined.

(** C6 as stated fails: a label of 64 bytes is encoded, length byte 64
    first, where the claim has an error and no bytes; and the length byte
    of a label of 256 bytes is 0. *)
Lemma Serialize_labels_long_label :
  String.length label64 = 64%nat
  /\ Serialize_labels [label64] = 64 :: bytes_of_string label64 ++ [0]
  /\ Serialize_labels [label64] <> []
  /\ String.length label256 = 256%nat
  /\ hd 1 (Serialize_labels [label256]) = 0.
Proof.
  repeat split; try reflexivity. discriminate.
Qed.

(** C7, as the code has it: an encoded answer is the encoded name, the
    type, the class and the TTL in big-endian order, then an RDLENGTH field
    that holds the RDLength field of the answer, then the RDATA bytes. *)
Theorem DNSAnswer_Serialize_fields a :
  is_uint16 (AType a) -> is_uint16 (AClass a) -> is_uint32 (TTL a) ->
  is_uint16 (RDLength a) ->
  DNSAnswer_Serialize a =
    Serialize_labels (Split_dot (AName a))
    ++ BigEndian.PutUint16 (AType a) ++ BigEndian.PutUint16 (AClass a)
    ++ BigEndian.PutUint32 (TTL a) ++ BigEndian.PutUint16 (RDLength a)
    ++ RData a
  /\ BigEndian.Uint16 (answer_field 0 2 a) = AType a
  /\ BigEndian.Uint16 (answer_field 2 4 a) = AClass a
  /\ BigEndian.Uint32 (answer_field 4 8 a) = TTL a
  /\ BigEndian.Uint16 (answer_field 8 10 a) = RDLength a
  /\ answer_from 10 a = RData a.
Proof.
  intros Ht Hc Httl Hrd.
  assert (Heq : DNSAnswer_Serialize a =
    Serialize_labels (Split_dot (AName a))
    ++ BigEndian.PutUint16 (AType a) ++ BigEndian.PutUint16 (AClass a)
    ++ BigEndian.PutUint32 (TTL a) ++ BigEndian.PutUint16 (RDLength a)
    ++ RData a).
  { unfold DNSAnswer_Serialize. rewrite <- !app_assoc. reflexivity. }
  split; [exact Heq |].
  unfold answer_field, answer_from. rewrite Heq, !slice_app_r.
  rewrite skipn_app, skipn_all2 by lia.
  replace (List.length (Serialize_labels (Split_dot (AName a))) + 10
           - List.length (Serialize_labels (Split_dot (AName a))))%nat
    with 10%nat by lia.
  unfold slice, BigEndian.PutUint16, BigEndian.PutUint32.
  cbn [app skipn firstn Nat.sub].
  change [uint8 (Z.shiftr (AType a) 8); uint8 (AType a)]
    with (BigEndian.PutUint16 (AType a)).
  change [uint8 (Z.shiftr (AClass a) 8); uint8 (AClass a)]
    with (BigEndian.PutUint16 (AClass a)).
  change [uint8 (Z.shiftr (RDLength a) 8); uint8 (RDLength a)]
    with (BigEndian.PutUint16 (RDLength a)).
  change [uint8 (Z.shiftr (TTL a) 24); uint8 (Z.shiftr (TTL a) 16);
          uint8 (Z.shiftr (TTL a) 8); uint8 (TTL a)]
    with (BigEndian.PutUint32 (TTL a)).
  rewrite !Uint16_PutUint16_id, Uint32_PutUint32_id by assumption.
  repeat split.
Qed.

Lemma DNSAnswer_Serialize_fields_witness :
  BigEndian.Uint16 (answer_field 8 10 sample_answer) = 4
  /\ answer_from 10 sample_answer = [8; 8; 8; 8].
Proof.
  assert (H16 : is_uint16 1) by (unfold is_uint16; lia).
  assert (H32 : is_uint32 60) by (unfold is_uint32; lia).
  assert (Hrd : is_uint16 4) by (unfold is_uint16; lia).
  pose proof (DNSAnswer_Serialize_fields sample_answer H16 H16 H32 Hrd) as H.
  split; apply H.
Defined.

(** C7 as stated fails: with RDLength left at zero and four bytes of
    RDATA, the RDLENGTH field of the encoded answer is 0 while 4 bytes of
    RDATA follow it. *)
Lemma DNSAnswer_Serialize_rdlength_field :
  DNSAnswer_Serialize zero_rdlength_answer =
    [1; 97; 1; 98; 0; 0; 1; 0; 1; 0; 0; 0; 60; 0; 0; 8; 8; 8; 8]
  /\ BigEndian.Uint16 (answer_field 8 10 zero_rdlength_answer) = 0
  /\ len (answer_from 10 zero_rdlength_answer) = 4
  /\ BigEndian.Uint16 (answer_field 8 10 zero_rdlength_answer)
     <> len (answer_from 10 zero_rdlength_answer).
Proof.
  repeat split. discriminate.
Qed.

(** ** Termination of name decoding *)

Lemma parseDNSQuestion_error data q e :
  parseDNSQuestion data = Returned (q, Some e) ->
  e = "invalid question format"%string.
Proof.
  unfold parseDNSQuestion.
  destruct (name_loop (S (List.length data)) data []) as [data' name | |];
    try discriminate.
  destruct (len (skipn 1 data') <? 4); intros [= _ <-]. reflexivity.
Qed.

(** C3, as the code has it: on every input buffer the name decoding of
    [parseDNSQuestion] ends, after at most one turn of its loop per two
    bytes of input and one more, and further turns change nothing; the
    call returns or stops on an out-of-range panic, and the only error it
    returns is the one for a missing type or class. *)
Theorem parseDNSQuestion_terminates data :
  parseDNSQuestion data <> Diverged
  /\ (forall name, name_loop (S (List.length data / 2)) data name <> OutOfFuel)
  /\ (forall name k,
        name_loop (S (List.length data / 2) + k) data name =
        name_loop (S (List.length data / 2)) data name)
  /\ match parseDNSQuestion data with
     | Returned (_, Some e) => e = "invalid question format"%string
     | _ => True
     end.
Proof.
  assert (Hhalf : forall name,
             name_loop (S (List.length data / 2)) data name <> OutOfFuel).
  { intros name. apply name_loop_terminates.
    pose proof (Nat.div_mod_eq (List.length data) 2).
    pose proof (Nat.mod_upper_bound (List.length data) 2). lia. }
  repeat split.
  - unfold parseDNSQuestion.
    pose proof (name_loop_terminates (S (List.length data)) data []) as Hend.
    destruct (name_loop (S (List.length data)) data []) as [data' name | |].
    + destruct (len (skipn 1 data') <? 4); discriminate.
    + discriminate.
    + exfalso. apply Hend; [lia | reflexivity].
  - exact Hhalf.
  - intros name k. apply name_loop_more_fuel. apply Hhalf.
  - destruct (parseDNSQuestion data) as [[q [e |]] | |] eqn:Hp; try exact I.
    eapply parseDNSQuestion_error. exact Hp.
Qed.

(** C3 as stated fails: on a question that is a pointer to its own offset
    [parseDNSQuestion] takes the byte 192 for the length of a label, runs
    out of the buffer and panics; it returns no error. *)
Lemma parseDNSQuestion_self_pointer :
  question_section self_pointer_message = [192; 12; 0; 1; 0; 1]
  /\ parseDNSQuestion (question_section self_pointer_message) = Panicked
  /\ ~ (exists q e,
          parseDNSQuestion (question_section self_pointer_message)
          = Returned (q, Some e)).
Proof.
  split; [reflexivity |]. split; [reflexivity |].
  intros (q & e & H). discriminate H.
Qed.

(** ** Further properties: sizes *)

Lemma Split_dot_total_length s :
  list_sum (map (fun l => S (String.length l)) (Split_dot s)) = S (String.length s).
Proof.
  induction s as [| c s IH]; [reflexivity |].
  cbn [Split_dot String.length]. destruct (Ascii.eqb c ".").
  - rewrite map_cons. unfold list_sum in *.
    cbn [fold_right String.length]. rewrite IH. reflexivity.
  - pose proof (Split_dot_nonempty s) as Hne.
    destruct (Split_dot s) as [| p ps]; [contradiction |].
    rewrite !map_cons in *. unfold list_sum in *.
    cbn [fold_right String.length] in IH |- *. lia.
Qed.

Lemma Serialize_labels_length labels :
  List.length (Serialize_labels labels) =
  S (list_sum (map (fun l => S (String.length l)) labels)).
Proof.
  rewrite Serialize_labels_uint8, length_app. cbn [List.length].
  induction labels as [| l ls IH]; [reflexivity |].
  rewrite map_cons. unfold list_sum in *.
  cbn [flat_map fold_right List.length app].
  rewrite length_app, bytes_of_string_length.
  cbn [List.length] in IH |- *. lia.
Qed.

(** The encoded name of a question or an answer is two bytes longer than
    the name: the dots become length bytes, one length byte and the closing
    zero are added.  So an encoded question is 6 bytes longer than its
    name, an encoded answer 12 bytes longer than its name and RDATA, and a
    reply is the 12 bytes of the header and both. *)
Theorem Serialize_sizes q a :
  List.length (Serialize_labels (Split_dot (Name q))) = (String.length (Name q) + 2)%nat
  /\ List.length (DNSQuestion_Serialize q) = (String.length (Name q) + 6)%nat
  /\ List.length (DNSAnswer_Serialize a) =
     (String.length (AName a) + 12 + List.length (RData a))%nat
  /\ List.length (Reply.createDNSReply q a) =
     (12 + (String.length (Name q) + 6)
      + (String.length (AName a) + 12 + List.length (RData a)))%nat.
Proof.
  assert (Hn : forall s,
             List.length (Serialize_labels (Split_dot s)) = (String.length s + 2)%nat).
  { intros s. rewrite Serialize_labels_length, Split_dot_total_length. lia. }
  assert (Hq : List.length (DNSQuestion_Serialize q) = (String.length (Name q) + 6)%nat).
  { unfold DNSQuestion_Serialize. rewrite !length_app, Hn. cbn [List.length BigEndian.PutUint16]. lia. }
  assert (Ha : List.length (DNSAnswer_Serialize a) =
               (String.length (AName a) + 12 + List.length (RData a))%nat).
  { unfold DNSAnswer_Serialize. rewrite !length_app, Hn.
    cbn [List.length BigEndian.PutUint16 BigEndian.PutUint32]. lia. }
  repeat split; try assumption; [apply Hn |].
  unfold Reply.createDNSReply. rewrite !length_app, Hq, Ha. reflexivity.
Qed.

(** ** Further properties: the 16-bit header *)

Lemma PutUint16_Uint16 b0 b1 :
  is_uint8 b0 -> is_uint8 b1 ->
  BigEndian.PutUint16 (BigEndian.Uint16 [b0; b1]) = [b0; b1].
Proof.
  unfold is_uint8, BigEndian.PutUint16, BigEndian.Uint16, uint16, uint8.
  intros H0 H1. cbn [nth].
  rewrite Z.shiftl_mul_pow2 by lia.
  rewrite (Z.mod_small b1), (Z.mod_small b0) by (pow2; lia).
  rewrite (Z.mod_small (b0 * 2 ^ 8)) by (pow2; lia).
  rewrite Z.lor_comm, (lor_add _ _ 8) by divmod.
  rewrite Z.shiftr_div_pow2 by lia.
  f_equal; [| f_equal]; divmod.
Qed.

(** [DNSHeader.Serialize] gives 12 bytes, and reading the six 16-bit
    fields back at the offsets 0, 2, 4, 6, 8 and 10 gives the fields of
    the header. *)
Theorem DNSHeader_Serialize_roundtrip h :
  is_uint16 (Reply.ID h) -> is_uint16 (Reply.Flags h) ->
  is_uint16 (Reply.QDCOUNT h) -> is_uint16 (Reply.ANCOUNT h) ->
  is_uint16 (Reply.NSCOUNT h) -> is_uint16 (Reply.ARCOUNT h) ->
  List.length (Reply.Serialize h) = 12%nat
  /\ BigEndian.Uint16 (slice 0 2 (Reply.Serialize h)) = Reply.ID h
  /\ BigEndian.Uint16 (slice 2 4 (Reply.Serialize h)) = Reply.Flags h
  /\ BigEndian.Uint16 (slice 4 6 (Reply.Serialize h)) = Reply.QDCOUNT h
  /\ BigEndian.Uint16 (slice 6 8 (Reply.Serialize h)) = Reply.ANCOUNT h
  /\ BigEndian.Uint16 (slice 8 10 (Reply.Serialize h)) = Reply.NSCOUNT h
  /\ BigEndian.Uint16 (slice 10 12 (Reply.Serialize h)) = Reply.ARCOUNT h.
Proof.
  intros Hid Hf Hqd Han Hns Har.
  split; [reflexivity |].
  unfold Reply.Serialize, slice, BigEndian.PutUint16.
  cbn [app skipn firstn Nat.sub].
  repeat match goal with
         | |- context [[uint8 (Z.shiftr ?v 8); uint8 ?v]] =>
             change [uint8 (Z.shiftr v 8); uint8 v] with (BigEndian.PutUint16 v)
         end.
  rewrite !Uint16_PutUint16_id by assumption. repeat split.
Qed.

Lemma DNSHeader_Serialize_roundtrip_witness :
  BigEndian.Uint16
    (slice 2 4 (Reply.Serialize (Reply.mkDNSHeader 1234 0x8000 1 1 0 0))) = 0x8000.
Proof.
  assert (H1 : is_uint16 1234) by (unfold is_uint16; lia).
  assert (H2 : is_uint16 0x8000) by (unfold is_uint16; lia).
  assert (H3 : is_uint16 1) by (unfold is_uint16; lia).
  assert (H4 : is_uint16 0) by (unfold is_uint16; lia).
  exact (proj1 (proj2 (proj2
    (DNSHeader_Serialize_roundtrip (Reply.mkDNSHeader 1234 0x8000 1 1 0 0)
       H1 H2 H3 H3 H4 H4)))).
Defined.

(** ** Further properties: what the question decoder does at the edges *)

(** The loop reads the labels in front of the data and goes on behind
    them. *)
Lemma name_loop_prefix labels : forall fuel name rest,
  Forall label_ok labels ->
  name_loop (List.length labels + fuel) (flat_map label_bytes labels ++ rest) name =
  name_loop fuel rest (name ++ labels).
Proof.
  induction labels as [| l ls IH]; intros fuel name rest Hl.
  - cbn. now rewrite app_nil_r.
  - inversion Hl as [| ? ? Hl1 Hls]; subst.
    cbn [flat_map List.length Nat.add name_loop].
    rewrite <- app_assoc, loop_turn_label by exact Hl1.
    rewrite IH by exact Hls. rewrite <- app_assoc. reflexivity.
Qed.

(** With the fuel [parseDNSQuestion] gives it. *)
Lemma name_loop_behind labels rest :
  Forall label_ok labels ->
  name_loop (S (List.length (flat_map label_bytes labels ++ rest)))
            (flat_map label_bytes labels ++ rest) [] =
  name_loop (S (List.length rest)) rest labels.
Proof.
  intros Hl.
  pose proof (flat_map_label_bytes_length labels) as Hlen.
  replace (S (List.length (flat_map label_bytes labels ++ rest)))
    with (List.length labels
          + (S (List.length rest)
             + (List.length (flat_map label_bytes labels) - List.length labels)))%nat
    by (rewrite length_app; lia).
  rewrite name_loop_prefix by exact Hl. cbn [app].
  apply name_loop_more_fuel. apply name_loop_terminates. lia.
Qed.

(** A name that is not closed by a zero byte makes [parseDNSQuestion]
    panic, not return an error: when the data end behind a label, and when
    they end within a label. *)
Theorem parseDNSQuestion_unterminated labels b partial :
  Forall label_ok labels ->
  1 <= b -> len partial < b ->
  parseDNSQuestion (flat_map label_bytes labels) = Panicked
  /\ parseDNSQuestion (flat_map label_bytes labels ++ b :: partial) = Panicked.
Proof.
  intros Hl Hb Hp. unfold parseDNSQuestion. split.
  - rewrite <- (app_nil_r (flat_map label_bytes labels)).
    rewrite name_loop_behind by exact Hl. reflexivity.
  - rewrite name_loop_behind by exact Hl.
    cbn [name_loop]. unfold loop_turn.
    destruct (Z.eqb_spec b 0); [lia |].
    destruct (Z.leb_spec (b + 1) (len (b :: partial))) as [Hle | _].
    + unfold len in Hle, Hp. cbn [List.length] in Hle. lia.
    + rewrite andb_false_r. reflexivity.
Qed.

Lemma parseDNSQuestion_unterminated_witness :
  parseDNSQuestion (flat_map label_bytes ["abc"; "com"]%string) = Panicked
  /\ parseDNSQuestion (flat_map label_bytes ["abc"]%string ++ [3; 99; 111]) = Panicked.
Proof.
  split.
  - apply (proj1 (parseDNSQuestion_unterminated ["abc"; "com"]%string 1 []
                    ltac:(repeat constructor) ltac:(lia) ltac:(cbn; lia))).
  - apply (proj2 (parseDNSQuestion_unterminated ["abc"]%string 3 [99; 111]
                    ltac:(repeat constructor) ltac:(lia) ltac:(cbn; lia))).
Defined.

(** A name followed by fewer than four bytes makes [parseDNSQuestion]
    return its error, with the decoded name in the question and the type
    and class left at zero. *)
Theorem parseDNSQuestion_truncated labels tail :
  Forall label_ok labels ->
  (List.length tail < 4)%nat ->
  parseDNSQuestion (flat_map label_bytes labels ++ 0 :: tail) =
  Returned ({| Name := Join_dot labels; Type_ := 0; Class_ := 0 |},
            Some "invalid question format"%string).
Proof.
  intros Hl Ht. unfold parseDNSQuestion.
  rewrite name_loop_behind by exact Hl. cbn [name_loop loop_turn Z.eqb skipn].
  destruct (Z.ltb_spec (len tail) 4) as [_ | Hge]; [reflexivity |].
  unfold len in Hge. lia.
Qed.

Lemma parseDNSQuestion_truncated_witness :
  parseDNSQuestion (flat_map label_bytes ["abc"; "com"]%string ++ 0 :: [0; 1; 0]) =
  Returned ({| Name := "abc.com"; Type_ := 0; Class_ := 0 |},
            Some "invalid question format"%string).
Proof.
  apply (parseDNSQuestion_truncated ["abc"; "com"]%string [0; 1; 0]).
  - repeat constructor.
  - cbn. lia.
Defined.

(** Decoding an encoded question gives the question back whatever bytes
    follow it: the decoder reads the name, the type and the class and
    ignores the rest. *)
Theorem parseDNSQuestion_Serialize_tail q tail :
  Forall label_ok (Split_dot (Name q)) ->
  is_uint16 (Type_ q) -> is_uint16 (Class_ q) ->
  parseDNSQuestion (DNSQuestion_Serialize q ++ tail) = Returned (q, None).
Proof.
  intros Hl Ht Hc. unfold DNSQuestion_Serialize.
  rewrite Serialize_labels_bytes
    by (eapply Forall_impl; [| exact Hl]; unfold label_ok; intros; lia).
  rewrite <- !app_assoc.
  rewrite parseDNSQuestion_labels by assumption.
  rewrite Join_dot_Split_dot. destruct q; reflexivity.
Qed.

Lemma parseDNSQuestion_Serialize_tail_witness :
  parseDNSQuestion (DNSQuestion_Serialize (mkDNSQuestion "abc.com" 1 1) ++ [7; 7]) =
  Returned (mkDNSQuestion "abc.com" 1 1, None).
Proof.
  apply (parseDNSQuestion_Serialize_tail (mkDNSQuestion "abc.com" 1 1) [7; 7]).
  - repeat constructor.
  - unfold is_uint16; cbn; lia.
  - unfold is_uint16; cbn; lia.
Defined.



(** ** Further properties: every decoded question was an encoded one *)

Lemma string_of_bytes_length b : String.length (string_of_bytes b) = List.length b.
Proof.
  unfold string_of_bytes. induction b as [| x b IH]; [reflexivity |].
  cbn [map string_of_list_ascii String.length List.length]. now rewrite IH.
Qed.

Lemma bytes_of_string_of_bytes b :
  Forall is_uint8 b -> bytes_of_string (string_of_bytes b) = b.
Proof.
  unfold bytes_of_string, string_of_bytes.
  induction 1 as [| x b Hx _ IH]; [reflexivity |].
  cbn [map string_of_list_ascii list_ascii_of_string]. rewrite IH.
  rewrite N_ascii_embedding by (unfold is_uint8 in Hx; pow2; lia).
  rewrite Z2N.id by (unfold is_uint8 in Hx; lia). reflexivity.
Qed.

Lemma Forall_firstn_of {A : Type} (P : A -> Prop) n (l : list A) :
  Forall P l -> Forall P (firstn n l).
Proof.
  intros H. rewrite <- (firstn_skipn n l) in H.
  apply Forall_app in H. apply H.
Qed.

(** A turn that goes on has read the bytes of one label. *)
Lemma loop_turn_sound data name data' name' :
  Forall is_uint8 data ->
  loop_turn data name = Continue data' name' ->
  exists l, name' = name ++ [l] /\ label_ok l /\ data = label_bytes l ++ data'.
Proof.
  intros Hb. unfold loop_turn. destruct data as [| b rest]; [discriminate |].
  destruct (Z.eqb_spec b 0) as [| Hnz]; [discriminate |].
  destruct (Z.leb_spec 1 (b + 1)) as [Hlo |]; [| discriminate].
  destruct (Z.leb_spec (b + 1) (len (b :: rest))) as [Hhi |]; [| discriminate].
  cbn [andb]. intros [= <- <-].
  inversion Hb as [| ? ? Hb0 Hrest]; subst. unfold is_uint8 in Hb0.
  unfold len in Hhi. cbn [List.length] in Hhi.
  replace (Z.to_nat (b + 1)) with (S (Z.to_nat b)) by lia.
  unfold slice. cbn [skipn]. replace (S (Z.to_nat b) - 1)%nat with (Z.to_nat b) by lia.
  exists (string_of_bytes (firstn (Z.to_nat b) rest)).
  assert (Hlen : List.length (firstn (Z.to_nat b) rest) = Z.to_nat b)
    by (rewrite length_firstn; lia).
  split; [reflexivity |]. split.
  - unfold label_ok. rewrite string_of_bytes_length, Hlen. pow2. lia.
  - unfold label_bytes. rewrite string_of_bytes_length, Hlen.
    rewrite bytes_of_string_of_bytes by (apply Forall_firstn_of; exact Hrest).
    rewrite Z2Nat.id by lia. cbn [app]. now rewrite firstn_skipn.
Qed.

(** A loop that stops has read the bytes of its labels and stands on a
    zero byte. *)
Lemma name_loop_sound fuel : forall data name data' name',
  Forall is_uint8 data ->
  name_loop fuel data name = Done data' name' ->
  exists labels rest,
    name' = name ++ labels /\ Forall label_ok labels
    /\ data = flat_map label_bytes labels ++ data' /\ data' = 0 :: rest.
Proof.
  induction fuel as [| fuel IH]; intros data name data' name' Hb; [discriminate |].
  cbn [name_loop]. destruct (loop_turn data name) as [| data1 name1 |] eqn:Hturn;
    [| | discriminate].
  - intros [= <- <-]. unfold loop_turn in Hturn.
    destruct data as [| b rest]; [discriminate |].
    destruct (Z.eqb_spec b 0) as [-> |].
    + exists [], rest. now rewrite app_nil_r.
    + destruct ((1 <=? b + 1) && (b + 1 <=? len (b :: rest))); discriminate.
  - intros Hloop.
    destruct (loop_turn_sound _ _ _ _ Hb Hturn) as (l & -> & Hl & ->).
    apply Forall_app in Hb. destruct Hb as [_ Hb1].
    destruct (IH _ _ _ _ Hb1 Hloop) as (labels & rest & -> & Hls & -> & ->).
    exists (l :: labels), rest. rewrite <- app_assoc. cbn [flat_map app].
    rewrite <- app_assoc. repeat split. constructor; assumption.
Qed.

Lemma lor_range a b n :
  0 <= n -> 0 <= a < 2 ^ n -> 0 <= b < 2 ^ n -> 0 <= Z.lor a b < 2 ^ n.
Proof.
  intros Hn Ha Hb. split; [apply Z.lor_nonneg; lia |].
  rewrite <- (Z.mod_small a (2 ^ n)), <- (Z.mod_small b (2 ^ n)) by lia.
  rewrite <- !Z.land_ones, <- Z.land_lor_distr_l, Z.land_ones by lia.
  apply Z.mod_pos_bound. apply Z.pow_pos_nonneg; lia.
Qed.

(** What [Uint16] reads is a 16-bit value. *)
Lemma Uint16_range b : is_uint16 (BigEndian.Uint16 b).
Proof.
  unfold is_uint16, BigEndian.Uint16, uint16.
  apply lor_range; [lia | |]; apply Z.mod_pos_bound; pow2; lia.
Qed.

(** Whenever [parseDNSQuestion] returns a question without an error on a
    buffer of bytes, the buffer starts with the encoding of that question:
    the labels of its name, each 1 to 255 bytes long, the closing zero, its
    type and its class. *)
Theorem parseDNSQuestion_sound data q :
  Forall is_uint8 data ->
  parseDNSQuestion data = Returned (q, None) ->
  exists labels tail,
    Forall label_ok labels
    /\ Name q = Join_dot labels
    /\ is_uint16 (Type_ q) /\ is_uint16 (Class_ q)
    /\ data = Serialize_labels labels
              ++ BigEndian.PutUint16 (Type_ q) ++ BigEndian.PutUint16 (Class_ q)
              ++ tail.
Proof.
  intros Hb. unfold parseDNSQuestion.
  destruct (name_loop (S (List.length data)) data []) as [data' name | |] eqn:Hloop;
    try discriminate.
  destruct (name_loop_sound _ _ _ _ _ Hb Hloop) as (labels & rest & -> & Hl & -> & ->).
  cbn [skipn app].
  destruct (Z.ltb_spec (len rest) 4) as [| Hge]; [discriminate |].
  destruct rest as [| t0 [| t1 [| c0 [| c1 tail]]]];
    try (unfold len in Hge; cbn [List.length] in Hge; lia).
  unfold slice. cbn [skipn firstn Nat.sub Name]. intros [= <-].
  cbn [Name Type_ Class_].
  apply Forall_app in Hb. destruct Hb as [_ Hb].
  inversion Hb as [| ? ? _ Hb1]; subst. inversion Hb1 as [| ? ? Ht0 Hb2]; subst.
  inversion Hb2 as [| ? ? Ht1 Hb3]; subst. inversion Hb3 as [| ? ? Hc0 Hb4]; subst.
  inversion Hb4 as [| ? ? Hc1 _]; subst.
  exists labels, tail. split; [exact Hl |]. split; [reflexivity |].
  split; [apply Uint16_range |]. split; [apply Uint16_range |].
  rewrite !PutUint16_Uint16 by assumption.
  rewrite Serialize_labels_bytes
    by (eapply Forall_impl; [| exact Hl]; unfold label_ok; intros; lia).
  rewrite <- app_assoc. reflexivity.
Qed.

Lemma parseDNSQuestion_sound_witness :
  exists labels tail,
    Forall label_ok labels
    /\ "abc.longassdomainname.com"%string = Join_dot labels
    /\ is_uint16 1 /\ is_uint16 1
    /\ skipn 12 test_message =
       Serialize_labels labels
       ++ BigEndian.PutUint16 1 ++ BigEndian.PutUint16 1 ++ tail.
Proof.
  apply (parseDNSQuestion_sound (skipn 12 test_message)
           (mkDNSQuestion "abc.longassdomainname.com" 1 1)).
  - repeat constructor; cbn; lia.
  - reflexivity.
Defined.

(** ** Further properties: names made of labels *)

Lemma Split_dot_dotless l : has_dot l = false -> Split_dot l = [l].
Proof.
  induction l as [| c l IH]; [reflexivity |].
  cbn [has_dot Split_dot]. intros H. apply orb_false_iff in H. destruct H as [Hc Hl].
  rewrite Hc, (IH Hl). reflexivity.
Qed.

Lemma Split_dot_app_dot l s :
  has_dot l = false -> Split_dot (l ++ String "." s) = l :: Split_dot s.
Proof.
  induction l as [| c l IH]; [reflexivity |].
  cbn [has_dot]. intros H. apply orb_false_iff in H. destruct H as [Hc Hl].
  change (String c l ++ String "." s)%string with (String c (l ++ String "." s)).
  cbn [Split_dot]. rewrite Hc, (IH Hl). reflexivity.
Qed.

(** Cutting at the dots a name joined from labels without dots gives the
    labels back. *)
Lemma Split_dot_Join_dot labels :
  labels <> [] ->
  Forall (fun l => has_dot l = false) labels ->
  Split_dot (Join_dot labels) = labels.
Proof.
  intros Hne Hd. induction Hd as [| l ls Hl Hls IH]; [contradiction |].
  destruct ls as [| l' ls'].
  - cbn [Join_dot]. apply Split_dot_dotless. exact Hl.
  - change (Join_dot (l :: l' :: ls'))
      with (l ++ String "." (Join_dot (l' :: ls')))%string.
    rewrite Split_dot_app_dot by exact Hl. rewrite IH by discriminate. reflexivity.
Qed.

(** ** Further properties: the question server *)

Lemma len_ge_12 {A : Type} (l : list A) :
  (12 <= List.length l)%nat -> (len l <? 12) = false.
Proof. intros H. unfold len. apply Z.ltb_ge. lia. Qed.

(** A datagram of 12 bytes or fewer, a bare header included, makes
    [handleDNSRequest] panic: [data[12:]] is out of range below 12 bytes,
    and at 12 bytes [parseDNSQuestion] indexes an empty slice. *)
Theorem handleDNSRequest_short_datagram data :
  (List.length data <= 12)%nat -> Reply.handleDNSRequest data = Panicked.
Proof.
  intros Hlen. unfold Reply.handleDNSRequest.
  destruct (Z.ltb_spec (len data) 12) as [| Hge]; [reflexivity |].
  unfold len in Hge. rewrite skipn_all2 by lia. reflexivity.
Qed.

Lemma handleDNSRequest_short_datagram_witness :
  Reply.handleDNSRequest [0xBE; 0xEF; 1; 0; 0; 1; 0; 0; 0; 0; 0; 0] = Panicked.
Proof.
  apply (handleDNSRequest_short_datagram [0xBE; 0xEF; 1; 0; 0; 1; 0; 0; 0; 0; 0; 0]).
  cbn. lia.
Defined.

(** On a query of a 12-byte header, a name of labels without dots, a type
    and a class, [handleDNSRequest] replies with the header of
    [createDNSReply], the question section byte for byte as it came, and
    one answer: the name once more in full, type 1, class 1, TTL 60,
    RDLENGTH 4 and the four bytes 8.  What follows the question in the
    datagram is dropped. *)
Theorem handleDNSRequest_reply hdr labels qtype qclass tail :
  List.length hdr = 12%nat ->
  labels <> [] ->
  Forall label_ok labels ->
  Forall (fun l => has_dot l = false) labels ->
  is_uint16 qtype -> is_uint16 qclass ->
  Reply.handleDNSRequest
    (hdr ++ (flat_map label_bytes labels ++ [0]
             ++ BigEndian.PutUint16 qtype ++ BigEndian.PutUint16 qclass) ++ tail) =
  Returned (Some
    ([4; 210; 128; 0; 0; 1; 0; 1; 0; 0; 0; 0]
     ++ (flat_map label_bytes labels ++ [0]
         ++ BigEndian.PutUint16 qtype ++ BigEndian.PutUint16 qclass)
     ++ (flat_map label_bytes labels ++ [0]
         ++ [0; 1; 0; 1; 0; 0; 0; 60; 0; 4; 8; 8; 8; 8]))).
Proof.
  intros Hhdr Hne Hl Hd Ht Hc. unfold Reply.handleDNSRequest.
  rewrite len_ge_12 by (rewrite length_app; lia).
  rewrite skipn_app, skipn_all2, Hhdr, Nat.sub_diag by lia.
  cbn [skipn]. rewrite app_nil_l, <- !app_assoc.
  rewrite parseDNSQuestion_labels by assumption.
  unfold Reply.createDNSReply, DNSQuestion_Serialize, DNSAnswer_Serialize.
  cbn [Name Type_ Class_ AName AType AClass TTL RDLength RData].
  rewrite Split_dot_Join_dot by assumption.
  rewrite Serialize_labels_bytes
    by (eapply Forall_impl; [| exact Hl]; unfold label_ok; intros; lia).
  rewrite <- !app_assoc. reflexivity.
Qed.

Lemma handleDNSRequest_reply_witness :
  Reply.handleDNSRequest sample_query =
  Returned (Some
    [4; 210; 128; 0; 0; 1; 0; 1; 0; 0; 0; 0;
     3; 97; 98; 99; 3; 99; 111; 109; 0; 0; 1; 0; 1;
     3; 97; 98; 99; 3; 99; 111; 109; 0; 0; 1; 0; 1; 0; 0; 0; 60; 0; 4; 8; 8; 8; 8]).
Proof.
  apply (handleDNSRequest_reply
           [0xBE; 0xEF; 1; 0; 0; 1; 0; 0; 0; 0; 0; 0]
           ["abc"; "com"]%string 1 1 [7; 7]).
  - reflexivity.
  - discriminate.
  - repeat constructor.
  - repeat constructor.
  - unfold is_uint16; lia.
  - unfold is_uint16; lia.
Defined.

(** Every reply of [handleDNSRequest] starts with the same 12 bytes, which
    decode to a response header with the ID 1234, one question and one
    answer: the ID of the query is never copied into the reply. *)
Theorem handleDNSRequest_reply_header data reply :
  Reply.handleDNSRequest data = Returned (Some reply) ->
  firstn 12 reply = [4; 210; 128; 0; 0; 1; 0; 1; 0; 0; 0; 0]
  /\ parseDnsHeader reply = Ok reply_header_1234.
Proof.
  unfold Reply.handleDNSRequest.
  destruct (len data <? 12); [discriminate |].
  destruct (parseDNSQuestion (skipn 12 data)) as [[question [err |]] | |];
    try discriminate.
  intros [= <-]. unfold Reply.createDNSReply.
  change (Reply.Serialize _) with [4; 210; 128; 0; 0; 1; 0; 1; 0; 0; 0; 0].
  cbn [app firstn]. split; [reflexivity |].
  rewrite parseDnsHeader_bytes. reflexivity.
Qed.

Lemma handleDNSRequest_reply_header_witness :
  firstn 2 sample_query = [0xBE; 0xEF]
  /\ exists reply,
       Reply.handleDNSRequest sample_query = Returned (Some reply)
       /\ parseDnsHeader reply = Ok reply_header_1234.
Proof.
  split; [reflexivity |].
  eexists. split; [reflexivity |].
  exact (proj2 (handleDNSRequest_reply_header sample_query _ eq_refl)).
Defined.

(** Whenever [handleDNSRequest] replies, the answer it appends carries
    the decoded name, and its RDLENGTH field is 4, the length of the RDATA
    that follows; when [parseDNSQuestion] returns its error nothing is
    sent. *)
Theorem handleDNSRequest_answer data :
  (12 <= List.length data)%nat ->
  match parseDNSQuestion (skipn 12 data) with
  | Returned (question, None) =>
      exists answer,
        Reply.handleDNSRequest data =
          Returned (Some (Reply.createDNSReply question answer))
        /\ AName answer = Name question
        /\ BigEndian.Uint16 (answer_field 8 10 answer) = 4
        /\ answer_from 10 answer = [8; 8; 8; 8]
  | Returned (_, Some _) => Reply.handleDNSRequest data = Returned None
  | Panicked => Reply.handleDNSRequest data = Panicked
  | Diverged => False
  end.
Proof.
  intros Hlen. unfold Reply.handleDNSRequest. rewrite len_ge_12 by exact Hlen.
  destruct (parseDNSQuestion (skipn 12 data)) as [[question [err |]] | |] eqn:Hp;
    try reflexivity.
  - eexists. split; [reflexivity |]. split; [reflexivity |].
    unfold answer_field, answer_from, DNSAnswer_Serialize.
    cbn [AName AType AClass TTL RDLength RData].
    rewrite <- !app_assoc, slice_app_r.
    rewrite skipn_app, skipn_all2 by lia.
    replace (List.length (Serialize_labels (Split_dot (Name question))) + 10
             - List.length (Serialize_labels (Split_dot (Name question))))%nat
      with 10%nat by lia.
    split; reflexivity.
  - unfold parseDNSQuestion in Hp.
    pose proof (name_loop_terminates (S (List.length (skipn 12 data)))
                  (skipn 12 data) [] ltac:(lia)) as Hend.
    destruct (name_loop (S (List.length (skipn 12 data))) (skipn 12 data) [])
      as [data' name | |]; try discriminate.
    + destruct (len (skipn 1 data') <? 4); discriminate.
    + apply Hend. reflexivity.
Qed.

Lemma handleDNSRequest_answer_witness :
  Reply.handleDNSRequest (firstn 23 sample_query) = Returned None.
Proof.
  exact (handleDNSRequest_answer (firstn 23 sample_query) ltac:(cbn; lia)).
Defined.

(** ** Further properties: the header server *)

Lemma boolToUint16_bit a k :
  0 <= k -> boolToUint16 (nonzero (Z.land a (2 ^ k))) = (a / 2 ^ k) mod 2.
Proof.
  intros Hk. rewrite nonzero_land_bit by exact Hk.
  pose proof (Z.mod_pos_bound (a / 2 ^ k) 2 ltac:(lia)).
  destruct (Z.eqb_spec ((a / 2 ^ k) mod 2) 1) as [-> | Hne]; cbn [boolToUint16]; lia.
Qed.

Lemma land_0x0F a : Z.land a 0x0F = a mod 16.
Proof. exact (land_low a 4 ltac:(lia)). Qed.

Lemma land_0x07 a : Z.land a 0x07 = a mod 8.
Proof. exact (land_low a 3 ltac:(lia)). Qed.

Lemma shiftr_3 a : Z.shiftr a 3 = a / 8.
Proof. exact (Z.shiftr_div_pow2 a 3 ltac:(lia)). Qed.

Lemma shiftr_4 a : Z.shiftr a 4 = a / 16.
Proof. exact (Z.shiftr_div_pow2 a 4 ltac:(lia)). Qed.

Lemma bit_0x80 a : boolToUint16 (nonzero (Z.land a 0x80)) = (a / 128) mod 2.
Proof. exact (boolToUint16_bit a 7 ltac:(lia)). Qed.

Lemma bit_0x04 a : boolToUint16 (nonzero (Z.land a 0x04)) = (a / 4) mod 2.
Proof. exact (boolToUint16_bit a 2 ltac:(lia)). Qed.

Lemma bit_0x02 a : boolToUint16 (nonzero (Z.land a 0x02)) = (a / 2) mod 2.
Proof. exact (boolToUint16_bit a 1 ltac:(lia)). Qed.

Lemma bit_0x01 a : boolToUint16 (nonzero (Z.land a 0x01)) = (a / 1) mod 2.
Proof. exact (boolToUint16_bit a 0 ltac:(lia)). Qed.

(** Setting bit 7 of a byte. *)
Lemma lor_0x80 b : is_uint8 b -> Z.lor b 0x80 = 128 + b mod 128.
Proof.
  unfold is_uint8. intros Hb.
  pose proof (Z.add_lor_land b 0x80) as Hadd.
  change 0x80 with (2 ^ 7) in Hadd at 2. rewrite land_bit in Hadd by lia.
  divmod.
Qed.

Lemma buildResponse_eq h :
  buildResponse h = (set_QR true h, (response_bytes h, None)).
Proof. reflexivity. Qed.

(** The header [parseDnsHeader] returns is always a valid one: every
    field within its type, OPCODE and RCODE below 16 and Z below 8. *)
Theorem parseDnsHeader_valid buf h :
  parseDnsHeader buf = Ok h -> Header_valid h.
Proof.
  unfold parseDnsHeader. destruct (len buf <? 12); [discriminate |].
  intros [= <-].
  assert (Ho : 0 <= Z.land (Z.shiftr (nth 2 buf 0) OPCODE_Shift) OPCODE_Mask < 16).
  { unfold OPCODE_Mask. change 0x0F with (2 ^ 4 - 1). rewrite land_low by lia.
    apply Z.mod_pos_bound. reflexivity. }
  assert (Hz : 0 <= Z.land (Z.shiftr (nth 3 buf 0) 4) 0x07 < 8).
  { change 0x07 with (2 ^ 3 - 1). rewrite land_low by lia.
    apply Z.mod_pos_bound. reflexivity. }
  assert (Hr : 0 <= Z.land (nth 3 buf 0) 0x0F < 16).
  { change 0x0F with (2 ^ 4 - 1). rewrite land_low by lia.
    apply Z.mod_pos_bound. reflexivity. }
  constructor; cbn [OPCODE Z_ RCODE]; try lia.
  constructor; cbn [ID OPCODE Z_ RCODE QDCOUNT ANCOUNT NSCOUNT ARCOUNT];
    try apply Uint16_range; unfold is_uint8; pow2; lia.
Qed.

Lemma parseDnsHeader_valid_witness :
  Header_valid
    {| ID := 0; QR := false; OPCODE := 0; AA := false; TC := false; RD := true;
       RA := false; Z_ := 0; RCODE := 2; QDCOUNT := 0x0102; ANCOUNT := 0x0304;
       NSCOUNT := 0x0506; ARCOUNT := 0x0708 |}.
Proof.
  exact (parseDnsHeader_valid test_header_bytes _ eq_refl).
Defined.

(** [parseDnsHeader] reads the first 12 bytes only: what follows them in
    the datagram does not change the header. *)
Theorem parseDnsHeader_prefix buf :
  (12 <= List.length buf)%nat ->
  parseDnsHeader (firstn 12 buf) = parseDnsHeader buf.
Proof.
  intros Hlen.
  do 12 (destruct buf as [| ? buf]; [cbn [List.length] in Hlen; lia |]).
  cbn [firstn]. rewrite !parseDnsHeader_bytes. reflexivity.
Qed.

Lemma parseDnsHeader_prefix_witness :
  parseDnsHeader (firstn 12 sample_query) = parseDnsHeader sample_query.
Proof.
  apply (parseDnsHeader_prefix sample_query). cbn. lia.
Defined.

(** One turn of the header server: on a datagram that starts with 12
    bytes the response is these 12 bytes with the top bit of byte 2, the QR
    bit, set; decoding and re-encoding changes nothing else, and what
    follows the header is not sent back. *)
Theorem main_turn_echo b0 b1 b2 b3 b4 b5 b6 b7 b8 b9 b10 b11 rest :
  Forall is_uint8 [b0; b1; b2; b3; b4; b5; b6; b7; b8; b9; b10; b11] ->
  main_turn (b0 :: b1 :: b2 :: b3 :: b4 :: b5 :: b6 :: b7 :: b8 :: b9 :: b10 :: b11 :: rest) =
  Some [b0; b1; Z.lor b2 0x80; b3; b4; b5; b6; b7; b8; b9; b10; b11].
Proof.
  intros Hb.
  repeat match goal with
         | H : Forall _ (_ :: _) |- _ => inversion H; subst; clear H
         end.
  unfold main_turn. rewrite parseDnsHeader_bytes, buildResponse_eq, response_bytes_eq.
  cbn [ID QDCOUNT ANCOUNT NSCOUNT ARCOUNT].
  rewrite !PutUint16_Uint16 by assumption.
  match goal with
  | |- context [BigEndian.PutUint16 (response_flags ?h)] =>
      change (BigEndian.PutUint16 (response_flags h))
        with [uint8 (Z.shiftr (response_flags h) 8); uint8 (response_flags h)];
      rewrite (hi_sum h), (lo_sum h)
  end.
  cbn [OPCODE AA TC RD RA Z_ RCODE app].
  rewrite !land_0x0F, land_0x07, !shiftr_3, !shiftr_4.
  rewrite !bit_0x80, bit_0x04, bit_0x02, bit_0x01.
  rewrite lor_0x80 by assumption.
  unfold is_uint8 in *.
  do 3 f_equal. f_equal; [divmod | f_equal; divmod].
Qed.

Lemma main_turn_echo_witness :
  main_turn sample_query = Some [0xBE; 0xEF; 129; 0; 0; 1; 0; 0; 0; 0; 0; 0].
Proof.
  apply (main_turn_echo 0xBE 0xEF 1 0 0 1 0 0 0 0 0 0).
  repeat constructor; cbn; lia.
Defined.

(** Two valid headers with the same response bytes differ in QR at most:
    [buildResponse] loses nothing else. *)
Theorem response_bytes_injective h1 h2 :
  Header_valid h1 -> Header_valid h2 ->
  response_bytes h1 = response_bytes h2 ->
  set_QR true h1 = set_QR true h2.
Proof.
  intros Hv1 Hv2 Heq.
  pose proof (parseDnsHeader_response h1 (valid_wf h1 Hv1)) as H1.
  pose proof (parseDnsHeader_response h2 (valid_wf h2 Hv2)) as H2.
  rewrite Heq, H2 in H1.
  rewrite !masked_valid in H1 by assumption. congruence.
Qed.

Lemma response_bytes_injective_witness :
  set_QR true query_header = set_QR true (set_QR true query_header).
Proof.
  assert (Hv : Header_valid query_header) by wf_closed.
  assert (Hv' : Header_valid (set_QR true query_header)) by wf_closed.
  exact (response_bytes_injective query_header (set_QR true query_header)
           Hv Hv' eq_refl).
Defined.

(** ** Names through the whole encoder and decoder *)








(** ** Names with a compression pointer *)

(** A byte with both top bits set is read as the length of a label. *)
Lemma loop_turn_pointer_byte k rest name :
  loop_turn (192 + Z.of_nat k :: rest) name =
  if 193 + Z.of_nat k <=? len (192 + Z.of_nat k :: rest)
  then Continue (skipn (193 + k) (192 + Z.of_nat k :: rest))
                (name ++ [string_of_bytes (slice 1 (193 + k) (192 + Z.of_nat k :: rest))])
  else Panic.
Proof.
  unfold loop_turn.
  destruct (Z.eqb_spec (192 + Z.of_nat k) 0) as [| _]; [lia |].
  destruct (Z.leb_spec 1 (192 + Z.of_nat k + 1)) as [_ |]; [| lia].
  replace (192 + Z.of_nat k + 1) with (193 + Z.of_nat k) by lia.
  replace (Z.to_nat (193 + Z.of_nat k)) with (193 + k)%nat by lia.
  reflexivity.
Qed.

(** C2, as the code has it: [parseDNSQuestion] decodes names that are
    written out in full.  On every message of a 12-byte header, labels of
    1 to 255 bytes, a zero byte, a type and a class it returns the labels
    joined by dots with that type and class; a length byte with both top
    bits set is no pointer but the length of a label of 192 bytes or more,
    read from the bytes that follow it; and of the message of the test it
    decodes the first question, abc.longassdomainname.com. *)
Theorem parseDNSQuestion_uncompressed hdr labels qtype qclass tail :
  List.length hdr = 12%nat ->
  Forall label_ok labels ->
  is_uint16 qtype -> is_uint16 qclass ->
  parseDNSQuestion
    (question_section
       (hdr ++ flat_map label_bytes labels ++ [0]
        ++ BigEndian.PutUint16 qtype ++ BigEndian.PutUint16 qclass ++ tail)) =
    Returned ({| Name := Join_dot labels; Type_ := qtype; Class_ := qclass |}, None)
  /\ (forall k rest name,
        loop_turn (192 + Z.of_nat k :: rest) name =
        if 193 + Z.of_nat k <=? len (192 + Z.of_nat k :: rest)
        then Continue (skipn (193 + k) (192 + Z.of_nat k :: rest))
                      (name ++ [string_of_bytes
                                  (slice 1 (193 + k) (192 + Z.of_nat k :: rest))])
        else Panic)
  /\ parseDNSQuestion (question_section test_message) =
     Returned ({| Name := "abc.longassdomainname.com"; Type_ := 1; Class_ := 1 |}, None).
Proof.
  intros Hhdr Hl Ht Hc. split; [| split].
  - unfold question_section.
    rewrite skipn_app, skipn_all2, Hhdr, Nat.sub_diag by lia.
    cbn [skipn]. rewrite app_nil_l.
    apply parseDNSQuestion_labels; assumption.
  - apply loop_turn_pointer_byte.
  - reflexivity.
Qed.

Lemma parseDNSQuestion_uncompressed_witness :
  parseDNSQuestion (question_section sample_query) =
  Returned ({| Name := "abc.com"; Type_ := 1; Class_ := 1 |}, None).
Proof.
  assert (H16 : is_uint16 1) by (unfold is_uint16; lia).
  refine (proj1 (parseDNSQuestion_uncompressed
                   [0xBE; 0xEF; 1; 0; 0; 1; 0; 0; 0; 0; 0; 0]
                   ["abc"; "com"]%string 1 1 [7; 7] _ _ H16 H16)).
  - reflexivity.
  - repeat constructor.
Defined.

(** C2 as stated fails: the message has the complete label sequence a at
    offset 0 and, at offset 12, the question def followed by a pointer to
    offset 0.  [handleDNSRequest] hands its bytes from offset 12 on to
    [parseDNSQuestion], which reads def, takes 192 for a label length and
    panics; no question def.a is decoded.  And of the message of the test,
    with its two questions, the reply holds one question and one answer,
    both for abc.longassdomainname.com. *)
Lemma pointer_not_followed :
  slice 0 3 pointer_message = label_bytes "a" ++ [0]
  /\ question_section pointer_message = label_bytes "def" ++ [192; 0; 0; 1; 0; 1]
  /\ parseDNSQuestion (question_section pointer_message) = Panicked
  /\ Reply.handleDNSRequest pointer_message = Panicked
  /\ Reply.handleDNSRequest test_message =
     Returned (Some
       (Reply.createDNSReply
          {| Name := "abc.longassdomainname.com"; Type_ := 1; Class_ := 1 |}
          {| AName := "abc.longassdomainname.com"; AType := 1; AClass := 1;
             TTL := 60; RDLength := 4; RData := [8; 8; 8; 8] |})).
Proof. repeat split. Qed.

(** ** Names with an empty label *)





